(** * The resilient request executor of the Amazing Marvin client

    A shallow embedding of [src/errors.ts] (the failure record and its
    classification predicates) and of the request path of [src/client.ts]
    (construction, [parseRetryAfter], [post], [makeRequestCore],
    [toMarvinError], [waitBeforeRetry] and the attempt loop of
    [requestWithRetries]), followed by the properties of the executor.

    Conventions of the embedding.
    - An [async] method is a function of the world it runs in: the world
      counts the transport invocations and the clock reads made so far and
      records every back-off delay that was awaited.
    - The transport ([fetch]) and the clock ([Date.now]) are oracles indexed
      by those counters, so that any deterministic transport, however it
      varies from attempt to attempt, is an instance.
    - A thrown JavaScript value is a [Thrown]; [throw]/[try]/[catch] are the
      [Throw] completion and [tryCatch].
    - The per-attempt timeout governor aborts the transport, which then
      rejects with an [Error]: it is part of the transport oracle.
    - A JavaScript number is the value of a binary64: the arithmetic of the
      client ([*], [-], [Math.pow]) rounds its exact result to the nearest
      binary64, ties to even, as IEEE 754 prescribes; the rounding is the
      one of [SpecFloat].  The loop index [attempt] and the results of
      [Date.now()] are integers. *)

From Stdlib Require Import ZArith QArith Qround Qpower String Ascii List Bool Lia
  DecimalString SpecFloat.
Import ListNotations.

Local Open Scope string_scope.
Local Open Scope Z_scope.

(** ** The part of the JavaScript runtime the client relies on *)

Module JS.

(** A JavaScript number, by its value: a finite value, an infinity or NaN.
    The two zeros are one value: the client never divides by a number nor
    inspects its sign. *)
Inductive number : Type :=
| NaN
| NegInf
| Fin (q : Q)
| PosInf.

(** An integer literal or an integer counter. *)
Definition ofZ (z : Z) : number := Fin (inject_Z z).

(** The value of a binary64 datum. *)
Definition valueOf (x : spec_float) : number :=
  match x with
  | S754_zero _ => Fin 0
  | S754_infinity negative => if negative then NegInf else PosInf
  | S754_nan => NaN
  | S754_finite negative m e =>
      let magnitude :=
        match e with
        | Zneg p => Qred (Zpos m # Pos.shiftl 1 (Npos p))
        | _ => inject_Z (Z.shiftl (Zpos m) e)
        end in
      Fin (if negative then Qopp magnitude else magnitude)
  end.

(** The binary64 nearest to [n / d] (ties to even; 53 bits of precision,
    exponents up to 1024), with the given sign. *)
Definition roundMagnitude (negative : bool) (n d : positive) : spec_float :=
  let '(m, e, l) := SFdiv_core_binary 53 1024 (Zpos n) 0 (Zpos d) 0 in
  binary_round_aux 53 1024 negative m e l.

(** The number an arithmetic operation returns for the exact result [q]. *)
Definition round (q : Q) : number :=
  match Qnum q with
  | Z0 => Fin 0
  | Zpos n => valueOf (roundMagnitude false n (Qden q))
  | Zneg n => valueOf (roundMagnitude true n (Qden q))
  end.

(** [Number.isNaN] *)
Definition isNaN (x : number) : bool :=
  match x with NaN => true | _ => false end.

Definition infTimes (positive : bool) (a : Q) : number :=
  match Qcompare a 0 with
  | Eq => NaN
  | Gt => if positive then PosInf else NegInf
  | Lt => if positive then NegInf else PosInf
  end.

(** [x * y] *)
Definition mul (x y : number) : number :=
  match x, y with
  | NaN, _ | _, NaN => NaN
  | Fin a, Fin b => round (a * b)
  | PosInf, Fin a | Fin a, PosInf => infTimes true a
  | NegInf, Fin a | Fin a, NegInf => infTimes false a
  | PosInf, PosInf | NegInf, NegInf => PosInf
  | PosInf, NegInf | NegInf, PosInf => NegInf
  end.

(** [x - y] *)
Definition sub (x y : number) : number :=
  match x, y with
  | NaN, _ | _, NaN => NaN
  | Fin a, Fin b => round (a - b)
  | PosInf, PosInf | NegInf, NegInf => NaN
  | PosInf, _ | _, NegInf => PosInf
  | NegInf, _ | _, PosInf => NegInf
  end.

(** [x <= y]; every comparison with NaN is false. *)
Definition leb (x y : number) : bool :=
  match x, y with
  | NaN, _ | _, NaN => false
  | NegInf, _ | _, PosInf => true
  | Fin a, Fin b => Qle_bool a b
  | PosInf, _ | _, NegInf => false
  end.

(** [x < y] *)
Definition ltb (x y : number) : bool :=
  match x, y with
  | NaN, _ | _, NaN => false
  | _, NegInf | PosInf, _ => false
  | NegInf, _ | _, PosInf => true
  | Fin a, Fin b => negb (Qle_bool b a)
  end.

(** [x === y] on numbers; NaN equals nothing. *)
Definition eqb (x y : number) : bool :=
  match x, y with
  | Fin a, Fin b => Qeq_bool a b
  | PosInf, PosInf | NegInf, NegInf => true
  | _, _ => false
  end.

(** [Math.floor] *)
Definition Math_floor (x : number) : number :=
  match x with
  | Fin q => Fin (inject_Z (Qfloor q))
  | _ => x
  end.

(** [Math.max] of two arguments: NaN as soon as one argument is. *)
Definition Math_max (x y : number) : number :=
  match x, y with
  | NaN, _ | _, NaN => NaN
  | _, _ => if leb x y then y else x
  end.

(** [Math.pow(2, e)] for an integer exponent: infinite from [e = 1024] on. *)
Definition Math_pow2 (e : Z) : number := round (Qpower 2 e).

(** The whitespace and line terminators that [String.prototype.trim]
    strips, among the code units below 256. *)
Definition isWhiteSpace (c : ascii) : bool :=
  let n := N_of_ascii c in
  ((9 <=? n) && (n <=? 13) || (n =? 32) || (n =? 160))%N.

Fixpoint trimStart (s : string) : string :=
  match s with
  | EmptyString => EmptyString
  | String c rest => if isWhiteSpace c then trimStart rest else s
  end.

Fixpoint trimEnd (s : string) : string :=
  match s with
  | EmptyString => EmptyString
  | String c rest =>
      match trimEnd rest with
      | EmptyString => if isWhiteSpace c then EmptyString else String c EmptyString
      | kept => String c kept
      end
  end.

(** [s.trim()] *)
Definition trim (s : string) : string := trimEnd (trimStart s).

(** The decimal rendering of an integer inside a template literal. *)
Definition showZ (z : Z) : string := NilZero.string_of_int (Z.to_int z).

(** A plain object used as a string-keyed record, in insertion order. *)
Definition record := list (string * string).

(** A JavaScript value, as far as [post] looks at its [body] argument:
    the primitives, whose truthiness varies, and objects, always truthy. *)
Inductive value : Type :=
| Undefined
| Null
| Boolean (b : bool)
| Num (n : number)
| Str (s : string)
| Object (properties : record).

(** ToBoolean: what [if (v)] and [!v] test. *)
Definition truthy (v : value) : bool :=
  match v with
  | Undefined | Null => false
  | Boolean b => b
  | Num NaN => false
  | Num (Fin q) => negb (Qeq_bool q 0)
  | Num _ => true
  | Str s => negb (String.eqb s "")
  | Object _ => true
  end.

Fixpoint setKey (k v : string) (obj : record) : record :=
  match obj with
  | [] => [(k, v)]
  | (k', v') :: rest =>
      if String.eqb k k' then (k, v) :: rest else (k', v') :: setKey k v rest
  end.

(** Object spread [{ ...target, ...source }]: later keys win. *)
Definition spread (target source : record) : record :=
  fold_left (fun acc kv => setKey (fst kv) (snd kv) acc) source target.

(** [a || b] on an optional string: undefined and the empty string are falsy. *)
Definition orString (a : option string) (b : string) : string :=
  match a with
  | Some s => if String.eqb s "" then b else s
  | None => b
  end.

(** [a ?? b] *)
Definition nullish {A : Type} (a : option A) (b : A) : A :=
  match a with Some x => x | None => b end.

(** ToBoolean of an optional string: [if (s)] and [s ? a : b]. *)
Definition truthyString (a : option string) : bool :=
  match a with
  | Some s => negb (String.eqb s "")
  | None => false
  end.

(** [s.includes(part)] *)
Fixpoint includes (s part : string) : bool :=
  if String.prefix part s then true
  else match s with
       | EmptyString => false
       | String _ rest => includes rest part
       end.

(** [obj[k]]: the value of an own property, if there is one. *)
Fixpoint lookup (k : string) (obj : record) : option string :=
  match obj with
  | [] => None
  | (k', v) :: rest => if String.eqb k k' then Some v else lookup k rest
  end.

End JS.

(** ** errors.ts: the failure record *)

Module MarvinApiError.
(** The plain object handed to the [MarvinError] constructor. *)
Record t : Type := mk {
  message : string;
  status : Z;
  statusText : string;
  endpoint : string;
  method : string;
  timestamp : Z;
  retryAfterMs : option JS.number
}.
End MarvinApiError.

Record MarvinError : Type := mkMarvinError {
  name : string;
  message : string;
  status : Z;
  statusText : string;
  endpoint : string;
  method : string;
  timestamp : Z;
  retryAfterMs : option JS.number
}.

(** [new MarvinError(error)] *)
Definition MarvinError_new (error : MarvinApiError.t) : MarvinError :=
  {| name := "MarvinError";
     message := MarvinApiError.message error;
     status := MarvinApiError.status error;
     statusText := MarvinApiError.statusText error;
     endpoint := MarvinApiError.endpoint error;
     method := MarvinApiError.method error;
     timestamp := MarvinApiError.timestamp error;
     retryAfterMs := MarvinApiError.retryAfterMs error |}.

Definition isClientError (this : MarvinError) : bool :=
  (400 <=? status this) && (status this <? 500).

Definition isServerError (this : MarvinError) : bool :=
  500 <=? status this.

Definition isRetryable (this : MarvinError) : bool :=
  isServerError this || (status this =? 0).

(** ** Thrown values, completions and the world *)

(** What a [catch] clause can receive, as far as the client tells values
    apart: [instanceof MarvinError], [instanceof Error], anything else. *)
Inductive Thrown : Type :=
| ThrownFailure (e : MarvinError)
| ThrownError (msg : string)
| ThrownValue (v : JS.value).

Inductive Completion (A : Type) : Type :=
| Normal (a : A)
| Throw (t : Thrown).
Arguments Normal {A} a.
Arguments Throw {A} t.

(** The response descriptor of the transport.  [retryAfter] is the result
    of [response.headers?.get?.('retry-after') ?? null]; [json] and [text]
    are the outcomes of the two body readers. *)
Record Response : Type := mkResponse {
  ok : bool;
  respStatus : Z;
  respStatusText : string;
  retryAfter : option string;
  json : Completion JS.value;
  text : Completion string
}.

Module RequestInit.
(** The request descriptor.  [signal] is the abort signal of the request,
    given by the milliseconds after which its controller aborts. *)
Record t : Type := mk {
  method : option string;
  headers : option JS.record;
  body : option string;
  signal : option JS.number
}.
End RequestInit.

(** How one transport invocation settles. *)
Inductive Settlement : Type :=
| Resolved (response : Response)
| Rejected (reason : Thrown).

(** The transport: the settlement of its [k]-th invocation on a request. *)
Definition Fetch : Type := nat -> string -> RequestInit.t -> Settlement.

(** The world an [async] call runs in: the requests handed to the transport
    so far (latest first), the number of clock reads so far, and the delays
    awaited so far (latest first). *)
Record World : Type := mkWorld {
  sent : list (string * RequestInit.t);
  clockReads : nat;
  slept : list JS.number
}.

Definition World0 : World := {| sent := []; clockReads := 0; slept := [] |}.

(** The number of transport invocations so far. *)
Definition fetchCalls (w : World) : nat := length (sent w).

(** The three ways the world changes. *)
Definition logged (url : string) (init : RequestInit.t) (w : World) : World :=
  {| sent := (url, init) :: sent w; clockReads := clockReads w; slept := slept w |}.

Definition ticked (w : World) : World :=
  {| sent := sent w; clockReads := S (clockReads w); slept := slept w |}.

Definition rested (ms : JS.number) (w : World) : World :=
  {| sent := sent w; clockReads := clockReads w; slept := ms :: slept w |}.

(** Code that runs in the world and cannot throw. *)
Definition Eff (A : Type) : Type := World -> A * World.

(** An [async] function: it settles with a completion. *)
Definition Async (A : Type) : Type := Eff (Completion A).

Definition pure {A} (a : A) : Eff A := fun w => (a, w).

Definition andThen {A B} (c : Eff A) (k : A -> Eff B) : Eff B :=
  fun w => let (a, w') := c w in k a w'.

Definition resolve {A} (a : A) : Async A := pure (Normal a).

Definition throw {A} (t : Thrown) : Async A := pure (Throw t).

Definition await {A B} (c : Async A) (k : A -> Async B) : Async B :=
  andThen c (fun r => match r with Normal a => k a | Throw t => throw t end).

Definition tryCatch {A} (c : Async A) (handler : Thrown -> Async A) : Async A :=
  andThen c (fun r => match r with Normal a => resolve a | Throw t => handler t end).

Declare Scope async_scope.
Delimit Scope async_scope with async.
Notation "'let!' x ':=' c 'in' k" := (andThen c (fun x => k))
  (at level 10, x name, c at level 100, k at level 200) : async_scope.
Notation "'await!' x ':=' c 'in' k" := (await c (fun x => k))
  (at level 10, x name, c at level 100, k at level 200) : async_scope.
Local Open Scope async_scope.

(** ** client.ts: configuration and construction *)

Module MarvinClientConfig.
Record t : Type := mk {
  apiToken : option string;
  baseUrl : option string;
  timeout : option JS.number;
  retries : option JS.number;
  retryDelay : option JS.number;
  fetch : option Fetch
}.
End MarvinClientConfig.

(** The private fields of a constructed client.  [retries] is a number
    like the other two: the constructor checks its sign only. *)
Record MarvinClient : Type := mkMarvinClient {
  apiToken : string;
  baseUrl : string;
  timeout : JS.number;
  retries : JS.number;
  retryDelay : JS.number;
  fetch : Fetch
}.

Definition tokenMessage : string := "API token is required and cannot be empty".

Section Client.

(** The runtime the client runs on. *)
Variable ToNumber : string -> JS.number.      (* [Number(value)] *)
Variable Date_getTime : string -> JS.number.  (* [new Date(value).getTime()] *)
Variable clock : nat -> Z.                    (* the [k]-th result of [Date.now()] *)
Variable JSON_stringify : JS.value -> string. (* [JSON.stringify] of a truthy value *)
Variable globalThis_fetch : Fetch.

(** The iterations that the model follows a loop whose budget is infinite:
    [retries = Infinity] passes the constructor and the loop then ends only
    by a [return] or a [throw] of its body. *)
Variable patience : nat.

(** [Date.now()] *)
Definition Date_now : Eff Z :=
  fun w => (clock (clockReads w), ticked w).

(** [new MarvinClient(config)]: the constructed client, or the [Error]
    the constructor throws. *)
Definition MarvinClient_new (config : MarvinClientConfig.t) : Completion MarvinClient :=
  if match MarvinClientConfig.apiToken config with
     | None => true
     | Some token => String.eqb token "" || String.eqb (JS.trim token) ""
     end
  then Throw (ThrownError tokenMessage)
  else
    let this :=
      {| apiToken := JS.nullish (MarvinClientConfig.apiToken config) "";
         baseUrl := JS.orString (MarvinClientConfig.baseUrl config)
                      "https://serv.amazingmarvin.com/api";
         timeout := JS.nullish (MarvinClientConfig.timeout config) (JS.ofZ 10000);
         retries := JS.nullish (MarvinClientConfig.retries config) (JS.ofZ 3);
         retryDelay := JS.nullish (MarvinClientConfig.retryDelay config) (JS.ofZ 1000);
         fetch := JS.nullish (MarvinClientConfig.fetch config) globalThis_fetch |} in
    if JS.leb (timeout this) (JS.ofZ 0)
    then Throw (ThrownError "Timeout must be greater than 0")
    else if JS.ltb (retries this) (JS.ofZ 0)
    then Throw (ThrownError "Retries must be 0 or greater")
    else if JS.leb (retryDelay this) (JS.ofZ 0)
    then Throw (ThrownError "Retry delay must be greater than 0")
    else Normal this.

Variable this : MarvinClient.

(** [this.delay(ms)]: suspend for [ms] milliseconds. *)
Definition delay (ms : JS.number) : Eff unit :=
  fun w => (tt, rested ms w).

(** [this.parseRetryAfter(value)] *)
Definition parseRetryAfter (value : option string) : Eff (option JS.number) :=
  match value with
  | None => pure None
  | Some v =>
      if String.eqb v "" then pure None
      else
        let secs := ToNumber v in
        if negb (JS.isNaN secs)
        then pure (Some (JS.Math_max (JS.ofZ 0) (JS.Math_floor (JS.mul secs (JS.ofZ 1000)))))
        else
          let dateMs := Date_getTime v in
          if negb (JS.isNaN dateMs)
          then let! now := Date_now in
               pure (Some (JS.Math_max (JS.ofZ 0) (JS.sub dateMs (JS.ofZ now))))
          else pure None
  end.

(** [this.toMarvinError(error, endpoint, method)] *)
Definition toMarvinError (error : Thrown) (endpoint method : string) : Eff MarvinError :=
  match error with
  | ThrownFailure e => pure e
  | ThrownError msg =>
      let! now := Date_now in
      pure (MarvinError_new
              (MarvinApiError.mk msg 0 "Network Error" endpoint method now None))
  | ThrownValue _ =>
      let! now := Date_now in
      pure (MarvinError_new
              (MarvinApiError.mk "Unknown error" 0 "Unknown Error" endpoint method now None))
  end.

Definition isNonRetryableClientError (err : MarvinError) : bool :=
  isClientError err && negb (status err =? 429).

Definition shouldRetry (err : MarvinError) : bool :=
  isRetryable err || (status err =? 429).

(** The delay [waitBeforeRetry] computes: the server's hint when the
    failure carries one, the exponential back-off otherwise. *)
Definition backoffDelay (attempt : Z) (err : MarvinError) : JS.number :=
  let serverDelay := retryAfterMs err in
  JS.nullish serverDelay (JS.mul (retryDelay this) (JS.Math_pow2 attempt)).

(** [this.waitBeforeRetry(attempt, err)] *)
Definition waitBeforeRetry (attempt : Z) (err : MarvinError) : Eff unit :=
  delay (backoffDelay attempt err).

(** [await fetchFn(url, init)]: the request is handed to the transport,
    which settles. *)
Definition fetchFn (url : string) (init : RequestInit.t) : Async Response :=
  fun w =>
    match fetch this (fetchCalls w) url init with
    | Resolved response => (Normal response, logged url init w)
    | Rejected reason => (Throw reason, logged url init w)
    end.

Section Generic.

(** The payload type and the body parser of one call. *)
Variable T : Type.
Variable parser : Response -> Completion T.

(** [this.makeRequestCore(endpoint, options, additionalHeaders, parser)].
    The timer that aborts the controller after [timeout] is cleared in the
    [finally] clause on every path; when it fires first, the transport
    rejects. *)
Definition makeRequestCore (endpoint : string) (options : RequestInit.t)
    (additionalHeaders : JS.record) : Async T :=
  let url := (baseUrl this ++ endpoint)%string in
  let method := JS.orString (RequestInit.method options) "GET" in
  let headers :=
    JS.spread
      (JS.spread [("Content-Type", "application/json"); ("X-API-Token", apiToken this)]
                 additionalHeaders)
      (JS.nullish (RequestInit.headers options) []) in
  await! response :=
    tryCatch
      (fetchFn url (RequestInit.mk (RequestInit.method options) (Some headers)
                                   (RequestInit.body options) (Some (timeout this))))
      (fun error =>
         match error with
         | ThrownFailure _ => throw error
         | ThrownError msg =>
             let! now := Date_now in
             throw (ThrownFailure (MarvinError_new
               (MarvinApiError.mk msg 0 "Network Error" endpoint method now None)))
         | ThrownValue _ =>
             let! now := Date_now in
             throw (ThrownFailure (MarvinError_new
               (MarvinApiError.mk "Unknown error" 0 "Unknown Error" endpoint method now None)))
         end) in
  if negb (ok response)
  then
    let! retryAfterMs := parseRetryAfter (retryAfter response) in
    let! now := Date_now in
    throw (ThrownFailure (MarvinError_new
      (MarvinApiError.mk
         ("HTTP " ++ JS.showZ (respStatus response) ++ ": " ++ respStatusText response)%string
         (respStatus response) (respStatusText response)
         endpoint method now retryAfterMs)))
  else pure (parser response).

(** How one iteration of the attempt loop ends. *)
Inductive Step : Type :=
| StepReturn (v : T)
| StepThrow (err : MarvinError)
| StepRetry (err : MarvinError).

(** The body of the [for] loop of [requestWithRetries], at index [attempt]. *)
Definition attemptOnce (endpoint : string) (options : RequestInit.t)
    (additionalHeaders : JS.record) (attempt : Z) : Eff Step :=
  let! settled := makeRequestCore endpoint options additionalHeaders in
  match settled with
  | Normal v => pure (StepReturn v)
  | Throw caught =>
      let! err := toMarvinError caught endpoint
                    (JS.orString (RequestInit.method options) "GET") in
      if isNonRetryableClientError err || JS.eqb (JS.ofZ attempt) (retries this)
         || negb (shouldRetry err)
      then pure (StepThrow err)
      else let! waited := waitBeforeRetry attempt err in pure (StepRetry err)
  end.

(** How the [for] statement is left. [Unfinished]: the iterations allowed
    to the model were used up before the statement was left. *)
Inductive LoopExit : Type :=
| Returned (v : T)
| Threw (err : MarvinError)
| FellThrough (lastError : option MarvinError)
| Unfinished.

(** [for (let attempt = ...; attempt <= this.retries; attempt++) { ... }] *)
Fixpoint attemptLoop (fuel : nat) (endpoint : string) (options : RequestInit.t)
    (additionalHeaders : JS.record) (attempt : Z)
    (lastError : option MarvinError) : Eff LoopExit :=
  match fuel with
  | O => pure Unfinished
  | S fuel' =>
      if JS.leb (JS.ofZ attempt) (retries this)
      then
        let! step := attemptOnce endpoint options additionalHeaders attempt in
        match step with
        | StepReturn v => pure (Returned v)
        | StepThrow err => pure (Threw err)
        | StepRetry err =>
            attemptLoop fuel' endpoint options additionalHeaders (attempt + 1) (Some err)
        end
      else pure (FellThrough lastError)
  end.

(** The iterations granted to the loop of a call: with a finite budget,
    one per index from 0 to [retries] and one more for the test that ends
    the loop. *)
Definition loopFuel : nat :=
  match retries this with
  | JS.Fin q => S (Z.to_nat (Qfloor q + 1))
  | JS.PosInf => S patience
  | _ => 1
  end.

(** [this.requestWithRetries(endpoint, options, additionalHeaders, parser)].
    [None] would be a call that is still pending when the loop has used
    its iterations up. *)
Definition requestWithRetries (endpoint : string) (options : RequestInit.t)
    (additionalHeaders : JS.record) : Eff (option (Completion T)) :=
  let! left := attemptLoop loopFuel endpoint options additionalHeaders 0 None in
  match left with
  | Returned v => pure (Some (Normal v))
  | Threw err => pure (Some (Throw (ThrownFailure err)))
  | FellThrough (Some lastError) => pure (Some (Throw (ThrownFailure lastError)))
  | FellThrough None =>
      let! now := Date_now in
      pure (Some (Throw (ThrownFailure (MarvinError_new
        (MarvinApiError.mk "Request failed after all retries" 0 "Retry Exhausted"
           endpoint (JS.orString (RequestInit.method options) "GET") now None)))))
  | Unfinished => pure None
  end.

End Generic.

(** [this.request(endpoint, options, additionalHeaders)] *)
Definition request (endpoint : string) (options : RequestInit.t)
    (additionalHeaders : JS.record) : Eff (option (Completion JS.value)) :=
  requestWithRetries JS.value (fun response => json response)
    endpoint options additionalHeaders.

(** [this.requestText(endpoint, options, additionalHeaders)] *)
Definition requestText (endpoint : string) (options : RequestInit.t)
    (additionalHeaders : JS.record) : Eff (option (Completion string)) :=
  requestWithRetries string (fun response => text response)
    endpoint options additionalHeaders.

(** [this.get(endpoint, additionalHeaders)] *)
Definition get (endpoint : string) (additionalHeaders : option JS.record)
    : Eff (option (Completion JS.value)) :=
  request endpoint (RequestInit.mk (Some "GET") None None None)
    (JS.nullish additionalHeaders []).

(** [this.post(endpoint, body, additionalHeaders)]; an omitted [body] is
    [JS.Undefined]. *)
Definition post (endpoint : string) (body : JS.value)
    (additionalHeaders : option JS.record) : Eff (option (Completion JS.value)) :=
  let options := RequestInit.mk (Some "POST") None None None in
  let options :=
    if JS.truthy body
    then RequestInit.mk (RequestInit.method options) (RequestInit.headers options)
                        (Some (JSON_stringify body)) (RequestInit.signal options)
    else options in
  request endpoint options (JS.nullish additionalHeaders []).

(** [this.addTask(task, autoComplete)]; an omitted [autoComplete] is [true]. *)
Definition addTask (task : JS.value) (autoComplete : option bool)
    : Eff (option (Completion JS.value)) :=
  let headers := if JS.nullish autoComplete true then [] else [("X-Auto-Complete", "false")] in
  post "/addTask" task (Some headers).

(** [this.getTodayItems(date)] *)
Definition getTodayItems (date : option string) : Eff (option (Completion JS.value)) :=
  let endpoint :=
    if JS.truthyString date then ("/todayItems?date=" ++ JS.nullish date "")%string
    else "/todayItems" in
  let headers := if JS.truthyString date then [("X-Date", JS.nullish date "")] else [] in
  get endpoint (Some headers).

(** The test of the [catch] clause of [getTrackedItem]:
    [error instanceof Error && error.message.includes(...)]; a failure
    record is an [Error]. *)
Definition isEmptyBodyError (error : Thrown) : bool :=
  match error with
  | ThrownFailure e => JS.includes (message e) "Unexpected end of JSON input"
  | ThrownError msg => JS.includes msg "Unexpected end of JSON input"
  | ThrownValue _ => false
  end.

(** [this.getTrackedItem()]; the [null] it returns is [JS.Null]. *)
Definition getTrackedItem : Eff (option (Completion JS.value)) :=
  let! settled := get "/trackedItem" None in
  match settled with
  | Some (Normal item) => pure (Some (Normal item))
  | Some (Throw error) =>
      if isEmptyBodyError error
      then pure (Some (Normal JS.Null))
      else pure (Some (Throw error))
  | None => pure None
  end.

End Client.

Arguments StepReturn {T} v.
Arguments StepThrow {T} err.
Arguments StepRetry {T} err.
Arguments Returned {T} v.
Arguments Threw {T} err.
Arguments FellThrough {T} lastError.
Arguments Unfinished {T}.

(** ** The vocabulary of the properties *)

(** [0 <= x] *)
Definition nonNegative (x : JS.number) : bool := JS.leb (JS.ofZ 0) x.

(** A string made of whitespace only (the empty string included). *)
Fixpoint onlyWhiteSpace (s : string) : bool :=
  match s with
  | EmptyString => true
  | String c rest => JS.isWhiteSpace c && onlyWhiteSpace rest
  end.

(** The [for] statement was left by a [return] or a [throw] of its body. *)
Definition leftExplicitly {T : Type} (left : LoopExit T) : Prop :=
  match left with
  | Returned _ | Threw _ => True
  | FellThrough _ | Unfinished => False
  end.

(** A status the retry policy retries: a server error, a transport fault
    or 429. *)
Definition retryableStatus (code : Z) : Prop :=
  500 <= code \/ code = 0 \/ code = 429.

(** A transport invocation that fails with a retryable failure: a response
    that is not ok with a retryable status, a rejection with a failure
    record of retryable status, or any other rejection (wrapped with
    status 0). *)
Definition retryableSettlement (s : Settlement) : Prop :=
  match s with
  | Resolved response => ok response = false /\ retryableStatus (respStatus response)
  | Rejected (ThrownFailure e) => retryableStatus (status e)
  | Rejected _ => True
  end.

Section Vocabulary.

Variable ToNumber : string -> JS.number.
Variable Date_getTime : string -> JS.number.
Variable clock : nat -> Z.
Variable this : MarvinClient.
Variable T : Type.
Variable parser : Response -> Completion T.
Variable endpoint : string.
Variable options : RequestInit.t.
Variable additionalHeaders : JS.record.

(** The request every attempt of the call hands to the transport. *)
Definition requestUrl : string := (baseUrl this ++ endpoint)%string.

Definition requestMethod : string := JS.orString (RequestInit.method options) "GET".

Definition requestInit : RequestInit.t :=
  RequestInit.mk (RequestInit.method options)
    (Some (JS.spread
             (JS.spread [("Content-Type", "application/json");
                         ("X-API-Token", apiToken this)] additionalHeaders)
             (JS.nullish (RequestInit.headers options) [])))
    (RequestInit.body options) (Some (timeout this)).

(** The failure built from a response that is not ok. *)
Definition httpFailure (response : Response) (now : Z) (hint : option JS.number)
    : MarvinError :=
  MarvinError_new
    (MarvinApiError.mk
       ("HTTP " ++ JS.showZ (respStatus response) ++ ": " ++ respStatusText response)%string
       (respStatus response) (respStatusText response)
       endpoint requestMethod now hint).

(** The failure wrapped around a fault that is not a failure record. *)
Definition faultFailure (msg label : string) (now : Z) : MarvinError :=
  MarvinError_new (MarvinApiError.mk msg 0 label endpoint requestMethod now None).

(** The failure an attempt hands to the retry decision, or its payload. *)
Definition candidate (w : World) : (T + MarvinError) * World :=
  match makeRequestCore ToNumber Date_getTime clock this T parser
          endpoint options additionalHeaders w with
  | (Normal v, w1) => (inl v, w1)
  | (Throw caught, w1) =>
      let (err, w2) := toMarvinError clock caught endpoint requestMethod w1 in
      (inr err, w2)
  end.

(** The failure [e] is the one the attempt builds from settlement [s]. *)
Definition producedBy (s : Settlement) (e : MarvinError) : Prop :=
  match s with
  | Resolved response =>
      status e = respStatus response /\
      statusText e = respStatusText response /\
      message e =
        ("HTTP " ++ JS.showZ (respStatus response) ++ ": " ++ respStatusText response)%string
  | Rejected (ThrownFailure e0) => e = e0
  | Rejected (ThrownError msg) =>
      status e = 0 /\ statusText e = "Network Error" /\ message e = msg
  | Rejected (ThrownValue _) =>
      status e = 0 /\ statusText e = "Unknown Error" /\ message e = "Unknown error"
  end.

(** The failure [e] was thrown as a failure record in one of the transport
    invocations from number [lo] to below number [hi], and the executor
    passes it on as it is: the transport rejected with [e], or it returned a
    2xx response on which the parser threw [e]. *)
Definition passedThrough (lo hi : nat) (e : MarvinError) : Prop :=
  exists k,
    (lo <= k < hi)%nat /\
    (fetch this k requestUrl requestInit = Rejected (ThrownFailure e) \/
     exists response,
       fetch this k requestUrl requestInit = Resolved response /\
       ok response = true /\ parser response = Throw (ThrownFailure e)).

(** The failure [e] was constructed by the executor: from a response that
    is not ok of one of the transport invocations from number [lo] to below
    number [hi], whose status and reason phrase it copies, or around a fault,
    with status 0 and a label of the executor. *)
Definition constructed (lo hi : nat) (e : MarvinError) : Prop :=
  (forall hint, retryAfterMs e = Some hint -> nonNegative hint = true) /\
  ((exists k response,
       (lo <= k < hi)%nat /\
       fetch this k requestUrl requestInit = Resolved response /\
       ok response = false /\
       status e = respStatus response /\
       statusText e = respStatusText response) \/
   (status e = 0 /\ retryAfterMs e = None /\
    (statusText e = "Network Error" \/ statusText e = "Unknown Error" \/
     statusText e = "Retry Exhausted"))).

End Vocabulary.

(** ** The vocabulary of the further properties *)

(** The delays awaited, latest first, when [k] attempts in a row from index
    [attempt] are retried without a hint of the server. *)
Fixpoint backoffSchedule (base : JS.number) (attempt : Z) (k : nat) : list JS.number :=
  match k with
  | O => []
  | S k' => (backoffSchedule base (attempt + 1) k' ++ [JS.mul base (JS.Math_pow2 attempt)])%list
  end.

(** A retryable settlement that carries no retry hint. *)
Definition plainRetryable (s : Settlement) : Prop :=
  match s with
  | Resolved response =>
      ok response = false /\ retryableStatus (respStatus response) /\
      retryAfter response = None
  | Rejected (ThrownFailure e) => retryableStatus (status e) /\ retryAfterMs e = None
  | Rejected _ => True
  end.

(** The configuration fields after the defaults of the constructor. *)
Definition configured (globalThis_fetch : Fetch) (config : MarvinClientConfig.t)
    (token : string) : MarvinClient :=
  {| apiToken := token;
     baseUrl := JS.orString (MarvinClientConfig.baseUrl config)
                  "https://serv.amazingmarvin.com/api";
     timeout := JS.nullish (MarvinClientConfig.timeout config) (JS.ofZ 10000);
     retries := JS.nullish (MarvinClientConfig.retries config) (JS.ofZ 3);
     retryDelay := JS.nullish (MarvinClientConfig.retryDelay config) (JS.ofZ 1000);
     fetch := JS.nullish (MarvinClientConfig.fetch config) globalThis_fetch |}.

(** ** Sample transports and clients *)

Module Samples.

Definition noNumber : string -> JS.number := fun _ => JS.NaN.

(** A [Number] that reads the header value ["2"] only. *)
Definition secondsOnly : string -> JS.number :=
  fun s => if String.eqb s "2" then JS.ofZ 2 else JS.NaN.

(** A [Number] that reads the header values ["2"], ["4.35"], ["1.001"] and
    ["-1"]: the binary64 nearest to each decimal. *)
Definition decimals : string -> JS.number :=
  fun s =>
    if String.eqb s "2" then JS.ofZ 2
    else if String.eqb s "4.35" then JS.Fin (2448832297382707 # 562949953421312)
    else if String.eqb s "1.001" then JS.Fin (2254051613498933 # 2251799813685248)
    else if String.eqb s "-1" then JS.ofZ (-1)
    else JS.NaN.

(** A [Date] that reads one HTTP-date only. *)
Definition oneDate : string -> JS.number :=
  fun s => if String.eqb s "Wed, 21 Oct 2015 07:28:00 GMT"
           then JS.ofZ 1445412480000 else JS.NaN.

Definition epoch : nat -> Z := fun k => 1445412470000 + Z.of_nat k.

Definition stringify : JS.value -> string := fun _ => "{}".

Definition okResponse (payload : Completion JS.value) : Response :=
  mkResponse true 200 "OK" None payload (Normal "OK").

Definition failResponse (code : Z) (reason : string) (hint : option string) : Response :=
  mkResponse false code reason hint
    (Throw (ThrownError "no body")) (Throw (ThrownError "no body")).

Definition success : JS.value := JS.Object [("success", "true")].

(** The transport that always settles the same way. *)
Definition always (s : Settlement) : Fetch := fun _ _ _ => s.

(** The transport that answers 500, 500, then 200. *)
Definition flaky : Fetch :=
  fun k _ _ =>
    match k with
    | 0%nat | 1%nat => Resolved (failResponse 500 "Internal Server Error" None)
    | _ => Resolved (okResponse (Normal success))
    end.

(** The transport whose 2xx responses have a body that does not parse. *)
Definition emptyBody : Fetch :=
  always (Resolved (okResponse (Throw (ThrownError "Unexpected end of JSON input")))).

(** The transport that always answers with the same failure status. *)
Definition failing (code : Z) (reason : string) (hint : option string) : Fetch :=
  always (Resolved (failResponse code reason hint)).

(** The options of a [get] and the parser of [request]. *)
Definition getOptions : RequestInit.t := RequestInit.mk (Some "GET") None None None.

Definition jsonParser : Response -> Completion JS.value := fun response => json response.

(** The transport that answers 503, 503, then 404. *)
Definition twoThenNotFound : Fetch :=
  fun k _ _ =>
    match k with
    | 0%nat | 1%nat => Resolved (failResponse 503 "Service Unavailable" None)
    | _ => Resolved (failResponse 404 "Not Found" None)
    end.

(** A failure record of the transport's own, and the transport that rejects
    with it. *)
Definition gone : MarvinError :=
  mkMarvinError "MarvinError" "Gone" 410 "Gone" "/elsewhere" "GET" 0 None.

Definition rejecting : Fetch := always (Rejected (ThrownFailure gone)).

(** A client that allows the budget [n], a number, and waits [base] ms. *)
Definition clientWith (transport : Fetch) (n : JS.number) (base : Z) : MarvinClient :=
  mkMarvinClient "retry-test-token" "https://serv.amazingmarvin.com/api"
    (JS.ofZ 10000) n (JS.ofZ base) transport.

(** A client that allows [n] retries, an integer. *)
Definition client (transport : Fetch) (n : Z) (base : Z) : MarvinClient :=
  clientWith transport (JS.ofZ n) base.

Definition config (token : option string) (wait : Z) : MarvinClientConfig.t :=
  MarvinClientConfig.mk token None (Some (JS.ofZ wait)) None None None.

(** The configuration of the tests with another budget. *)
Definition configWith (n : JS.number) (transport : Fetch) : MarvinClientConfig.t :=
  MarvinClientConfig.mk (Some "retry-test-token") None None (Some n)
    (Some (JS.ofZ 100)) (Some transport).

(** How long the samples follow a loop without bound. *)
Definition patient : nat := 8.

End Samples.

(** ** Facts about the runtime model *)

(** Rounding keeps the mantissa non-negative, so it never yields NaN. *)
Lemma shr_1_nonNegative (mrs : shr_record) :
  0 <= shr_m mrs -> 0 <= shr_m (shr_1 mrs).
Proof.
  destruct mrs as [m r s]. cbn [shr_m]. unfold shr_1.
  destruct m as [|[p|p|]|[p|p|]]; cbn [shr_m]; lia.
Qed.

Lemma iter_pos_preserves {A : Type} (f : A -> A) (P : A -> Prop) :
  (forall x, P x -> P (f x)) -> forall n x, P x -> P (iter_pos f n x).
Proof.
  intros Hf. induction n as [n IH|n IH|]; intros x Hx; cbn [iter_pos]; auto.
Qed.

Lemma shr_nonNegative (mrs : shr_record) (e n : Z) :
  0 <= shr_m mrs -> 0 <= shr_m (fst (shr mrs e n)).
Proof.
  intros H. unfold shr. destruct n as [|p|p]; cbn [fst]; try exact H.
  apply (iter_pos_preserves shr_1 (fun x => 0 <= shr_m x) shr_1_nonNegative). exact H.
Qed.

Lemma shr_fexp_nonNegative (m e : Z) (l : location) :
  0 <= m -> 0 <= shr_m (fst (shr_fexp 53 1024 m e l)).
Proof.
  intros H. unfold shr_fexp. apply shr_nonNegative.
  destruct l as [|[| |]]; exact H.
Qed.

Lemma round_nearest_even_nonNegative (m : Z) (l : location) :
  0 <= m -> 0 <= round_nearest_even m l.
Proof.
  intros H. unfold round_nearest_even.
  destruct l as [|[| |]]; try destruct (Z.even m); lia.
Qed.

Lemma binary_round_aux_isNaN (negative : bool) (m e : Z) (l : location) :
  0 <= m -> JS.isNaN (JS.valueOf (binary_round_aux 53 1024 negative m e l)) = false.
Proof.
  intros H. unfold binary_round_aux.
  pose proof (shr_fexp_nonNegative m e l H) as H1.
  destruct (shr_fexp 53 1024 m e l) as [mrs1 e1]. cbn [fst] in H1.
  pose proof (shr_fexp_nonNegative
                (round_nearest_even (shr_m mrs1) (loc_of_shr_record mrs1)) e1 loc_Exact
                (round_nearest_even_nonNegative _ _ H1)) as H2.
  destruct (shr_fexp 53 1024 (round_nearest_even (shr_m mrs1) (loc_of_shr_record mrs1))
              e1 loc_Exact) as [mrs2 e2]. cbn [fst] in H2.
  destruct (shr_m mrs2) as [|p|p]; [reflexivity | | lia].
  destruct (e2 <=? 1024 - 53); [reflexivity|]. destruct negative; reflexivity.
Qed.

Lemma roundMagnitude_isNaN (negative : bool) (n d : positive) :
  JS.isNaN (JS.valueOf (JS.roundMagnitude negative n d)) = false.
Proof.
  unfold JS.roundMagnitude, SFdiv_core_binary.
  set (e' := Z.min _ _). set (s := 0 - 0 - e').
  set (m' := match s with Z.pos _ => _ | 0 => _ | Z.neg _ => _ end).
  assert (0 <= m') as Hm.
  { unfold m'. destruct s; [lia | apply Z.shiftl_nonneg; lia | lia]. }
  pose proof (Z.div_pos m' (Z.pos d) Hm eq_refl) as Hq. unfold Z.div in Hq.
  destruct (Z.div_eucl m' (Z.pos d)) as [q r]. cbn [fst] in Hq.
  apply binary_round_aux_isNaN. exact Hq.
Qed.

Lemma round_isNaN (q : Q) : JS.isNaN (JS.round q) = false.
Proof.
  unfold JS.round. destruct (Qnum q); [reflexivity | |]; apply roundMagnitude_isNaN.
Qed.

Lemma Math_max_nonNegative (x : JS.number) :
  JS.isNaN x = false -> nonNegative (JS.Math_max (JS.ofZ 0) x) = true.
Proof.
  destruct x as [| |q|]; cbn; try discriminate; intros _; try reflexivity.
  destruct (Qle_bool (inject_Z 0) q) eqn:E; cbn; [exact E | reflexivity].
Qed.

Lemma Math_floor_isNaN (x : JS.number) : JS.isNaN (JS.Math_floor x) = JS.isNaN x.
Proof. destruct x; reflexivity. Qed.

Lemma scaled_floor_isNaN (secs : JS.number) :
  JS.isNaN secs = false ->
  JS.isNaN (JS.Math_floor (JS.mul secs (JS.ofZ 1000))) = false.
Proof.
  rewrite Math_floor_isNaN.
  destruct secs; cbn [JS.mul JS.ofZ JS.isNaN]; intros H; try discriminate;
    try reflexivity.
  apply round_isNaN.
Qed.

Lemma sub_finite_isNaN (x : JS.number) (z : Z) :
  JS.isNaN x = false -> JS.isNaN (JS.sub x (JS.ofZ z)) = false.
Proof.
  destruct x; cbn [JS.sub JS.ofZ JS.isNaN]; intros H; try discriminate;
    try reflexivity.
  apply round_isNaN.
Qed.

(** Comparisons of an integer with the budget. *)
Lemma leb_Fin (a : Z) (q : Q) :
  JS.leb (JS.ofZ a) (JS.Fin q) = (a <=? Qfloor q).
Proof.
  cbn [JS.leb JS.ofZ]. apply eq_true_iff_eq.
  rewrite Qle_bool_iff, Z.leb_le. split; intros H.
  - rewrite <- (Qfloor_Z a). apply Qfloor_resp_le. exact H.
  - apply Qle_trans with (inject_Z (Qfloor q)); [|apply Qfloor_le].
    rewrite <- Zle_Qle. exact H.
Qed.

Lemma eqb_Fin (a : Z) (q : Q) :
  JS.eqb (JS.ofZ a) (JS.Fin q) = true -> a = Qfloor q.
Proof.
  cbn [JS.eqb JS.ofZ]. intros H. apply Qeq_bool_iff in H.
  rewrite <- (Qfloor_Z a). apply Qfloor_comp. exact H.
Qed.

Lemma leb_ofZ (a b : Z) : JS.leb (JS.ofZ a) (JS.ofZ b) = (a <=? b).
Proof. unfold JS.ofZ at 2. rewrite leb_Fin, Qfloor_Z. reflexivity. Qed.

Lemma eqb_ofZ (a b : Z) : JS.eqb (JS.ofZ a) (JS.ofZ b) = (a =? b).
Proof.
  cbn [JS.eqb JS.ofZ]. apply eq_true_iff_eq.
  rewrite Qeq_bool_iff, Z.eqb_eq, inject_Z_injective. tauto.
Qed.

Lemma ltb_ofZ (a b : Z) : JS.ltb (JS.ofZ a) (JS.ofZ b) = (a <? b).
Proof.
  cbn [JS.ltb JS.ofZ]. rewrite Z.ltb_antisym. f_equal.
  apply eq_true_iff_eq. rewrite Qle_bool_iff, Z.leb_le, <- Zle_Qle. tauto.
Qed.

Lemma trimEnd_blank (s : string) :
  JS.trimEnd s = "" <-> onlyWhiteSpace s = true.
Proof.
  induction s as [|c rest IH]; cbn; [tauto|].
  destruct (JS.trimEnd rest) eqn:E.
  - destruct (JS.isWhiteSpace c); cbn.
    + split; intros _; [apply IH|]; reflexivity.
    + split; discriminate.
  - split; [discriminate|].
    intros H. apply andb_true_iff in H. destruct H as [_ H].
    apply IH in H. discriminate.
Qed.

Lemma trim_blank (s : string) :
  JS.trim s = "" <-> onlyWhiteSpace s = true.
Proof.
  unfold JS.trim. induction s as [|c rest IH]; cbn; [tauto|].
  destruct (JS.isWhiteSpace c) eqn:E; cbn [andb]; [exact IH|].
  rewrite trimEnd_blank. cbn. rewrite E. cbn. tauto.
Qed.

(** ** One attempt *)

Section OneAttempt.

Variable ToNumber : string -> JS.number.
Variable Date_getTime : string -> JS.number.
Variable clock : nat -> Z.
Variable this : MarvinClient.
Variable T : Type.
Variable parser : Response -> Completion T.
Variable endpoint : string.
Variable options : RequestInit.t.
Variable additionalHeaders : JS.record.

Local Abbreviation requestUrl := (requestUrl this endpoint).
Local Abbreviation requestInit := (requestInit this options additionalHeaders).
Local Abbreviation requestMethod := (requestMethod options).
Local Abbreviation httpFailure := (httpFailure endpoint options).
Local Abbreviation faultFailure := (faultFailure endpoint options).
Local Abbreviation candidate := (candidate ToNumber Date_getTime clock this T parser
                                   endpoint options additionalHeaders).
Local Abbreviation core := (makeRequestCore ToNumber Date_getTime clock this T parser
                          endpoint options additionalHeaders).
Local Abbreviation parseHint := (parseRetryAfter ToNumber Date_getTime clock).
Local Abbreviation once := (attemptOnce ToNumber Date_getTime clock this T parser
                          endpoint options additionalHeaders).

Lemma parseRetryAfter_world (value : option string) (w : World) :
  sent (snd (parseHint value w)) = sent w /\
  slept (snd (parseHint value w)) = slept w.
Proof.
  unfold parseRetryAfter. destruct value as [v|]; [|split; reflexivity].
  destruct (String.eqb v ""); [split; reflexivity|].
  destruct (negb (JS.isNaN (ToNumber v))); [split; reflexivity|].
  destruct (negb (JS.isNaN (Date_getTime v))); split; reflexivity.
Qed.

Lemma parseRetryAfter_nonNegative (value : option string) (w : World) (hint : JS.number) :
  fst (parseHint value w) = Some hint -> nonNegative hint = true.
Proof.
  unfold parseRetryAfter. destruct value as [v|]; [|discriminate].
  destruct (String.eqb v ""); [discriminate|].
  destruct (JS.isNaN (ToNumber v)) eqn:En; cbn [negb].
  - destruct (JS.isNaN (Date_getTime v)) eqn:Ed; cbn [negb]; [discriminate|].
    unfold andThen, Date_now, pure. cbn [fst].
    intros [= <-]. apply Math_max_nonNegative, sub_finite_isNaN, Ed.
  - unfold pure. cbn [fst]. intros [= <-].
    apply Math_max_nonNegative, scaled_floor_isNaN, En.
Qed.

(** What one run of [makeRequestCore] does, by the settlement of the transport. *)
Lemma makeRequestCore_run (w : World) :
  core w =
  match fetch this (fetchCalls w) requestUrl requestInit with
  | Rejected (ThrownFailure e) =>
      (Throw (ThrownFailure e), logged requestUrl requestInit w)
  | Rejected (ThrownError msg) =>
      let w1 := logged requestUrl requestInit w in
      (Throw (ThrownFailure (faultFailure msg "Network Error" (clock (clockReads w1)))),
       ticked w1)
  | Rejected (ThrownValue _) =>
      let w1 := logged requestUrl requestInit w in
      (Throw (ThrownFailure (faultFailure "Unknown error" "Unknown Error"
                               (clock (clockReads w1)))),
       ticked w1)
  | Resolved response =>
      let w1 := logged requestUrl requestInit w in
      if ok response
      then (parser response, w1)
      else
        let (hint, w2) := parseHint (retryAfter response) w1 in
        (Throw (ThrownFailure (httpFailure response (clock (clockReads w2)) hint)),
         ticked w2)
  end.
Proof.
  unfold makeRequestCore, await, tryCatch, andThen, fetchFn.
  fold requestUrl. fold requestInit. fold requestMethod.
  destruct (fetch this (fetchCalls w) requestUrl requestInit) as [response|[e|msg|v]];
    cbn; try reflexivity.
  destruct (ok response); cbn; [reflexivity|].
  destruct (parseHint (retryAfter response) (logged requestUrl requestInit w)).
  reflexivity.
Qed.

(** Every attempt invokes the transport exactly once and awaits nothing. *)
Lemma makeRequestCore_world (w : World) :
  sent (snd (core w)) = (requestUrl, requestInit) :: sent w /\
  slept (snd (core w)) = slept w.
Proof.
  rewrite makeRequestCore_run.
  destruct (fetch this (fetchCalls w) requestUrl requestInit) as [response|[e|msg|v]];
    cbn; try (split; reflexivity).
  destruct (ok response); cbn; [split; reflexivity|].
  pose proof (parseRetryAfter_world (retryAfter response)
                (logged requestUrl requestInit w)) as [Hs Hz].
  destruct (parseHint (retryAfter response) (logged requestUrl requestInit w)) as [hint w2].
  cbn in *. rewrite Hs, Hz. split; reflexivity.
Qed.

Lemma toMarvinError_world (caught : Thrown) (e m : string) (w : World) :
  sent (snd (toMarvinError clock caught e m w)) = sent w /\
  slept (snd (toMarvinError clock caught e m w)) = slept w.
Proof. destruct caught; split; reflexivity. Qed.

Lemma candidate_world (w : World) :
  sent (snd (candidate w)) = (requestUrl, requestInit) :: sent w /\
  slept (snd (candidate w)) = slept w.
Proof.
  unfold candidate. pose proof (makeRequestCore_world w) as [Hs Hz].
  destruct (core w) as [[v|caught] w1]; cbn in *; [split; assumption|].
  pose proof (toMarvinError_world caught endpoint requestMethod w1) as [Hs' Hz'].
  destruct (toMarvinError clock caught endpoint requestMethod w1) as [err w2].
  cbn in *. rewrite Hs', Hz'. split; assumption.
Qed.

(** An attempt is one more invocation of the transport. *)
Lemma candidate_calls (w w' : World) (r : T + MarvinError) :
  candidate w = (r, w') -> fetchCalls w' = S (fetchCalls w).
Proof.
  intros H. pose proof (candidate_world w) as [Hs _]. rewrite H in Hs.
  unfold fetchCalls. cbn [snd] in Hs. rewrite Hs. reflexivity.
Qed.

(** The loop body is the retry decision applied to the candidate. *)
Lemma attemptOnce_run (attempt : Z) (w : World) :
  once attempt w =
  match candidate w with
  | (inl v, w1) => (StepReturn v, w1)
  | (inr err, w2) =>
      if isNonRetryableClientError err || JS.eqb (JS.ofZ attempt) (retries this)
         || negb (shouldRetry err)
      then (StepThrow err, w2)
      else (StepRetry err, rested (backoffDelay this attempt err) w2)
  end.
Proof.
  unfold attemptOnce, andThen, candidate. fold requestMethod.
  destruct (core w) as [[v|caught] w1]; [reflexivity|].
  destruct (toMarvinError clock caught endpoint requestMethod w1) as [err w2].
  destruct (isNonRetryableClientError err || JS.eqb (JS.ofZ attempt) (retries this)
            || negb (shouldRetry err)); reflexivity.
Qed.

End OneAttempt.

(** ** The attempt loop *)

Lemma shouldRetry_status (err : MarvinError) :
  shouldRetry err = true <-> 500 <= status err \/ status err = 0 \/ status err = 429.
Proof.
  unfold shouldRetry, isRetryable, isServerError.
  rewrite !orb_true_iff, Z.leb_le, !Z.eqb_eq. tauto.
Qed.

Lemma isNonRetryableClientError_status (err : MarvinError) :
  isNonRetryableClientError err = true <->
  400 <= status err < 500 /\ status err <> 429.
Proof.
  unfold isNonRetryableClientError, isClientError.
  rewrite !andb_true_iff, negb_true_iff, Z.leb_le, Z.ltb_lt, Z.eqb_neq. tauto.
Qed.

Lemma shouldRetry_not_client (err : MarvinError) :
  shouldRetry err = true -> isNonRetryableClientError err = false.
Proof.
  intros H. apply shouldRetry_status in H.
  destruct (isNonRetryableClientError err) eqn:E; [|reflexivity].
  apply isNonRetryableClientError_status in E. lia.
Qed.

Lemma shouldRetry_refused (err : MarvinError) :
  ~ retryableStatus (status err) -> shouldRetry err = false.
Proof.
  intros H. destruct (shouldRetry err) eqn:E; [|reflexivity].
  apply shouldRetry_status in E. contradiction.
Qed.

(** The loop of every client is granted at least one iteration. *)
Lemma loopFuel_positive (patience : nat) (this : MarvinClient) :
  exists fuel, loopFuel patience this = S fuel.
Proof. unfold loopFuel. destruct (retries this); eexists; reflexivity. Qed.

(** The iterations granted to a client with an integer budget. *)
Lemma loopFuel_ofZ (patience : nat) (this : MarvinClient) (N : Z) :
  retries this = JS.ofZ N -> loopFuel patience this = S (Z.to_nat (N + 1)).
Proof. intros H. unfold loopFuel. rewrite H. cbn [JS.ofZ]. rewrite Qfloor_Z. reflexivity. Qed.

Lemma loopFuel_Fin (patience : nat) (this : MarvinClient) (q : Q) :
  retries this = JS.Fin q -> loopFuel patience this = S (Z.to_nat (Qfloor q + 1)).
Proof. intros H. unfold loopFuel. rewrite H. reflexivity. Qed.

Section AttemptLoop.

Variable ToNumber : string -> JS.number.
Variable Date_getTime : string -> JS.number.
Variable clock : nat -> Z.
Variable patience : nat.
Variable this : MarvinClient.
Variable T : Type.
Variable parser : Response -> Completion T.
Variable endpoint : string.
Variable options : RequestInit.t.
Variable additionalHeaders : JS.record.

Local Abbreviation once := (attemptOnce ToNumber Date_getTime clock this T parser
                              endpoint options additionalHeaders).
Local Abbreviation loop := (fun fuel => attemptLoop ToNumber Date_getTime clock this T parser
                              fuel endpoint options additionalHeaders).
Local Abbreviation cand := (candidate ToNumber Date_getTime clock this T parser
                              endpoint options additionalHeaders).
Local Abbreviation call := (requestWithRetries ToNumber Date_getTime clock patience this
                              T parser endpoint options additionalHeaders).

Lemma attemptLoop_step (fuel : nat) (attempt : Z) (last : option MarvinError) (w : World) :
  JS.leb (JS.ofZ attempt) (retries this) = true ->
  loop (S fuel) attempt last w =
  match once attempt w with
  | (StepReturn v, w') => (Returned v, w')
  | (StepThrow err, w') => (Threw err, w')
  | (StepRetry err, w') => loop fuel (attempt + 1) (Some err) w'
  end.
Proof.
  intros H. cbn [attemptLoop]. rewrite H.
  unfold andThen. destruct (once attempt w) as [[v|err|err] w']; reflexivity.
Qed.

Lemma attemptLoop_falls_through (fuel : nat) (attempt : Z) (last : option MarvinError)
    (w : World) :
  JS.leb (JS.ofZ attempt) (retries this) = false ->
  loop (S fuel) attempt last w = (FellThrough last, w).
Proof. intros H. cbn [attemptLoop]. rewrite H. reflexivity. Qed.

(** With an integer budget: from any index within the budget, and with the
    iterations that remain, the loop is left by its body. *)
Lemma attemptLoop_leftExplicitly (N : Z) (fuel : nat) :
  retries this = JS.ofZ N ->
  forall (attempt : Z) (last : option MarvinError) (w : World),
    attempt <= N ->
    (Z.to_nat (N - attempt) < fuel)%nat ->
    leftExplicitly (fst (loop fuel attempt last w)).
Proof.
  intros HN.
  induction fuel as [|fuel IH]; intros attempt last w Hle Hfuel; [lia|].
  rewrite attemptLoop_step by (rewrite HN, leb_ofZ; apply Z.leb_le; exact Hle).
  rewrite attemptOnce_run.
  destruct (cand w) as [[v|err] w1]; [exact I|].
  rewrite HN, eqb_ofZ.
  destruct (isNonRetryableClientError err || (attempt =? N)
            || negb (shouldRetry err)) eqn:E; [exact I|].
  apply orb_false_iff in E. destruct E as [E _].
  apply orb_false_iff in E. destruct E as [_ E].
  apply Z.eqb_neq in E.
  apply IH; lia.
Qed.

(** With an integer budget, when every attempt ends in a retryable failure,
    the loop runs through the whole budget and throws the failure of its last
    attempt.  [P] relates a failure to the index of the transport invocation
    it came from. *)
Lemma attemptLoop_exhausts (N : Z) (P : nat -> MarvinError -> Prop) :
  retries this = JS.ofZ N ->
  (forall w, exists err w',
      cand w = (inr err, w') /\ shouldRetry err = true /\ P (fetchCalls w) err) ->
  forall (n fuel : nat) (attempt : Z) (last : option MarvinError) (w : World),
    attempt = N - Z.of_nat n ->
    (n < fuel)%nat ->
    exists err w',
      loop fuel attempt last w = (Threw err, w') /\
      fetchCalls w' = (fetchCalls w + n + 1)%nat /\
      length (slept w') = (length (slept w) + n)%nat /\
      P (fetchCalls w + n)%nat err.
Proof.
  intros HN Hall. induction n as [|n IH]; intros fuel attempt last w Hat Hfuel;
    (destruct fuel as [|fuel]; [lia|]);
    (rewrite attemptLoop_step by (rewrite HN, leb_ofZ; apply Z.leb_le; lia));
    rewrite attemptOnce_run;
    destruct (Hall w) as (err & w1 & Hc & Hr & HP);
    pose proof (candidate_world ToNumber Date_getTime clock this T parser
                  endpoint options additionalHeaders w) as [Hs Hz];
    rewrite Hc in *; cbn [fst snd] in *;
    rewrite HN, eqb_ofZ, (shouldRetry_not_client err Hr), Hr; cbn [negb orb].
  - replace (attempt =? N) with true by (symmetry; apply Z.eqb_eq; lia).
    cbn [orb]. exists err, w1. unfold fetchCalls. rewrite Hs, Hz. cbn [length].
    repeat split; try lia.
    replace (length (sent w) + 0)%nat with (fetchCalls w) by (unfold fetchCalls; lia).
    exact HP.
  - replace (attempt =? N) with false by (symmetry; apply Z.eqb_neq; lia).
    cbn [orb].
    destruct (IH fuel (attempt + 1) (Some err)
                (rested (backoffDelay this attempt err) w1)) as (e & w' & Hl & Hn & Hd & HPe);
      [lia | lia |].
    exists e, w'. rewrite Hl. unfold fetchCalls in *. cbn [rested sent slept length] in *.
    rewrite Hs, Hz in *. cbn [length] in *.
    repeat split; try lia.
    replace (length (sent w) + S n)%nat with (S (length (sent w)) + n)%nat by lia.
    exact HPe.
Qed.

(** With a finite budget the iterations granted to a call always suffice:
    the loop is left. *)
Lemma attemptLoop_finishes (q : Q) (fuel : nat) :
  retries this = JS.Fin q ->
  forall (attempt : Z) (last : option MarvinError) (w : World),
    (Z.to_nat (Qfloor q + 1 - attempt) < fuel)%nat ->
    fst (loop fuel attempt last w) <> Unfinished.
Proof.
  intros Hq.
  induction fuel as [|fuel IH]; intros attempt last w Hfuel; [lia|].
  destruct (JS.leb (JS.ofZ attempt) (retries this)) eqn:Hle.
  - rewrite attemptLoop_step by assumption.
    rewrite Hq, leb_Fin in Hle. apply Z.leb_le in Hle.
    destruct (once attempt w) as [[v|err|err] w1]; cbn; try discriminate.
    apply IH. lia.
  - rewrite attemptLoop_falls_through by assumption. discriminate.
Qed.

(** Every call of a client whose budget is not infinite settles: it returns
    a payload or throws. *)
Lemma requestWithRetries_settles (w : World) :
  retries this <> JS.PosInf ->
  exists settled w', call w = (Some settled, w').
Proof.
  intros Hfin. unfold requestWithRetries, andThen.
  assert (fst (loop (loopFuel patience this) 0 None w) <> Unfinished) as H.
  { destruct (retries this) as [| |q|] eqn:Hq; try contradiction.
    - unfold loopFuel. rewrite Hq. rewrite attemptLoop_falls_through; [discriminate|].
      rewrite Hq. reflexivity.
    - unfold loopFuel. rewrite Hq. rewrite attemptLoop_falls_through; [discriminate|].
      rewrite Hq. reflexivity.
    - apply (attemptLoop_finishes q); [exact Hq|].
      rewrite (loopFuel_Fin patience this q Hq). lia. }
  destruct (loop (loopFuel patience this) 0 None w) as [[v|err|[last|]|] w1]; cbn in *.
  - eexists _, _. reflexivity.
  - eexists _, _. reflexivity.
  - eexists _, _. reflexivity.
  - eexists _, _. reflexivity.
  - exfalso. apply H. reflexivity.
Qed.

Lemma requestWithRetries_threw (w w' : World) (err : MarvinError) :
  loop (loopFuel patience this) 0 None w = (Threw err, w') ->
  call w = (Some (Throw (ThrownFailure err)), w').
Proof. intros H. unfold requestWithRetries, andThen. rewrite H. reflexivity. Qed.

(** What the first iteration does decides the call, when it ends the loop. *)
Lemma requestWithRetries_first (w w' : World) (err : MarvinError) :
  JS.leb (JS.ofZ 0) (retries this) = true ->
  once 0 w = (StepThrow err, w') ->
  call w = (Some (Throw (ThrownFailure err)), w').
Proof.
  intros Hle Ho. apply requestWithRetries_threw.
  destruct (loopFuel_positive patience this) as [fuel ->].
  rewrite attemptLoop_step by exact Hle. rewrite Ho. reflexivity.
Qed.

End AttemptLoop.

(** ** The executor *)

Section Executor.

Variable ToNumber : string -> JS.number.
Variable Date_getTime : string -> JS.number.
Variable clock : nat -> Z.
Variable patience : nat.
Variable this : MarvinClient.
Variable T : Type.
Variable parser : Response -> Completion T.
Variable endpoint : string.
Variable options : RequestInit.t.
Variable additionalHeaders : JS.record.

Local Abbreviation url := (requestUrl this endpoint).
Local Abbreviation init := (requestInit this options additionalHeaders).
Local Abbreviation method := (requestMethod options).
Local Abbreviation parseHint := (parseRetryAfter ToNumber Date_getTime clock).
Local Abbreviation once := (attemptOnce ToNumber Date_getTime clock this T parser
                              endpoint options additionalHeaders).
Local Abbreviation loop := (fun fuel => attemptLoop ToNumber Date_getTime clock this T parser
                              fuel endpoint options additionalHeaders).
Local Abbreviation cand := (candidate ToNumber Date_getTime clock this T parser
                              endpoint options additionalHeaders).
Local Abbreviation call := (requestWithRetries ToNumber Date_getTime clock patience this
                              T parser endpoint options additionalHeaders).
Local Abbreviation passed := (passedThrough this T parser endpoint options additionalHeaders).
Local Abbreviation built := (constructed this endpoint options additionalHeaders).

(** The candidate of an attempt whose response is not ok. *)
Lemma candidate_of_response (w : World) (response : Response) :
  fetch this (fetchCalls w) url init = Resolved response ->
  ok response = false ->
  exists now hint w',
    cand w = (inr (httpFailure endpoint options response now hint), w') /\
    sent w' = (url, init) :: sent w /\ slept w' = slept w /\
    (forall h, hint = Some h -> nonNegative h = true).
Proof.
  intros Hf Hok. unfold candidate. rewrite makeRequestCore_run, Hf. cbn zeta. rewrite Hok.
  pose proof (parseRetryAfter_world ToNumber Date_getTime clock
                (retryAfter response) (logged url init w)) as [Hs Hz].
  pose proof (parseRetryAfter_nonNegative ToNumber Date_getTime clock
                (retryAfter response) (logged url init w)) as Hn.
  destruct (parseHint (retryAfter response) (logged url init w)) as [hint w2].
  cbn in *. exists (clock (clockReads w2)), hint, (ticked w2).
  cbn. rewrite Hs, Hz. repeat split. intros h ->. apply Hn. reflexivity.
Qed.

(** The candidate of an attempt whose 2xx response does not parse. *)
Lemma candidate_of_parser_fault (w : World) (response : Response) (msg : string) :
  fetch this (fetchCalls w) url init = Resolved response ->
  ok response = true ->
  parser response = Throw (ThrownError msg) ->
  exists now w',
    cand w = (inr (faultFailure endpoint options msg "Network Error" now), w').
Proof.
  intros Hf Hok Hp. unfold candidate. rewrite makeRequestCore_run, Hf. cbn zeta.
  rewrite Hok, Hp. cbn. eexists _, _. reflexivity.
Qed.

(** A retryable settlement gives a candidate that the policy retries. *)
Lemma candidate_of_retryable (w : World) :
  retryableSettlement (fetch this (fetchCalls w) url init) ->
  exists err w',
    cand w = (inr err, w') /\ shouldRetry err = true /\
    producedBy (fetch this (fetchCalls w) url init) err.
Proof.
  intros H.
  destruct (fetch this (fetchCalls w) url init) as [response|[e|msg|v]] eqn:Hf.
  - destruct H as [Hok Hst].
    destruct (candidate_of_response w response Hf Hok) as (now & hint & w' & Hc & _).
    exists (httpFailure endpoint options response now hint), w'.
    split; [exact Hc|]. split; [apply shouldRetry_status; exact Hst|].
    cbn. repeat split.
  - exists e, (logged url init w). unfold candidate. rewrite makeRequestCore_run, Hf.
    cbn. split; [reflexivity|]. split; [apply shouldRetry_status; exact H|reflexivity].
  - unfold candidate. rewrite makeRequestCore_run, Hf. cbn.
    eexists _, _. split; [reflexivity|]. split; [reflexivity|]. cbn. repeat split.
  - unfold candidate. rewrite makeRequestCore_run, Hf. cbn.
    eexists _, _. split; [reflexivity|]. split; [reflexivity|]. cbn. repeat split.
Qed.

Lemma passedThrough_widen (lo hi lo' hi' : nat) (e : MarvinError) :
  passed lo hi e -> (lo' <= lo)%nat -> (hi <= hi')%nat -> passed lo' hi' e.
Proof. intros (k & Hk & H) Hlo Hhi. exists k. split; [lia|exact H]. Qed.

Lemma constructed_widen (lo hi lo' hi' : nat) (e : MarvinError) :
  built lo hi e -> (lo' <= lo)%nat -> (hi <= hi')%nat -> built lo' hi' e.
Proof.
  intros [Hh [(k & response & Hk & H)|H]] Hlo Hhi; (split; [exact Hh|]).
  - left. exists k, response. split; [lia|exact H].
  - right. exact H.
Qed.

(** The candidate failure of an attempt was passed through from, or
    constructed for, the transport invocation of that attempt. *)
Lemma candidate_origin (w w' : World) (err : MarvinError) :
  cand w = (inr err, w') ->
  passed (fetchCalls w) (S (fetchCalls w)) err \/
  built (fetchCalls w) (S (fetchCalls w)) err.
Proof.
  unfold candidate. rewrite makeRequestCore_run.
  destruct (fetch this (fetchCalls w) url init) as [response|[e|msg|v]] eqn:Hf; cbn zeta.
  - destruct (ok response) eqn:Hok.
    + destruct (parser response) as [v|[e|msg|v]] eqn:Hp; cbn.
      * discriminate.
      * intros [= <- _]. left. exists (fetchCalls w). split; [lia|].
        right. exists response. auto.
      * intros [= <- _]. right. split; [discriminate|]. right. cbn. auto.
      * intros [= <- _]. right. split; [discriminate|]. right. cbn. auto.
    + pose proof (parseRetryAfter_nonNegative ToNumber Date_getTime clock
                    (retryAfter response) (logged url init w)) as Hn.
      destruct (parseHint (retryAfter response) (logged url init w)) as [hint w2].
      cbn. intros [= <- _]. right. split.
      * cbn. intros h ->. apply Hn. reflexivity.
      * left. exists (fetchCalls w), response. cbn. repeat split; auto; lia.
  - cbn. intros [= <- _]. left. exists (fetchCalls w). split; [lia|]. left. exact Hf.
  - cbn. intros [= <- _]. right. split; [discriminate|]. right. cbn. auto.
  - cbn. intros [= <- _]. right. split; [discriminate|]. right. cbn. auto.
Qed.

(** Whatever the loop throws, or holds as last error when it is left, came
    from a transport invocation of the loop.  [Inv lo hi e] states that [e]
    came from an invocation from number [lo] to below number [hi]. *)
Lemma attemptLoop_invariant (Inv : nat -> nat -> MarvinError -> Prop) :
  (forall lo hi lo' hi' e,
      Inv lo hi e -> (lo' <= lo)%nat -> (hi <= hi')%nat -> Inv lo' hi' e) ->
  (forall w w' err, cand w = (inr err, w') -> Inv (fetchCalls w) (S (fetchCalls w)) err) ->
  forall (fuel : nat) (attempt : Z) (last : option MarvinError) (w : World) (lo : nat),
    (lo <= fetchCalls w)%nat ->
    (forall e, last = Some e -> Inv lo (fetchCalls w) e) ->
    (lo <= fetchCalls (snd (loop fuel attempt last w)))%nat /\
    match fst (loop fuel attempt last w) with
    | Threw err => Inv lo (fetchCalls (snd (loop fuel attempt last w))) err
    | FellThrough (Some e) => Inv lo (fetchCalls (snd (loop fuel attempt last w))) e
    | _ => True
    end.
Proof.
  intros Hmono Hall.
  induction fuel as [|fuel IH]; intros attempt last w lo Hlo Hlast; [split; [exact Hlo|exact I]|].
  destruct (JS.leb (JS.ofZ attempt) (retries this)) eqn:Hle.
  - rewrite attemptLoop_step by assumption. rewrite attemptOnce_run.
    destruct (cand w) as [[v|err] w1] eqn:Hc;
      pose proof (candidate_calls ToNumber Date_getTime clock this T parser
                    endpoint options additionalHeaders w w1 _ Hc) as Hcalls.
    + cbn [fst snd]. split; [lia|exact I].
    + assert (Inv lo (fetchCalls w1) err) as Herr.
      { apply (Hmono (fetchCalls w) (S (fetchCalls w))); [eapply Hall, Hc | lia | lia]. }
      destruct (isNonRetryableClientError err || JS.eqb (JS.ofZ attempt) (retries this)
                || negb (shouldRetry err)).
      * cbn [fst snd]. split; [lia|exact Herr].
      * apply IH.
        -- unfold fetchCalls in *. cbn [rested sent]. lia.
        -- intros e [= <-]. exact Herr.
  - rewrite attemptLoop_falls_through by assumption. cbn [fst snd].
    split; [exact Hlo|]. destruct last as [e|]; [auto|exact I].
Qed.

(** C1 (as amended): when the transport returns a 2xx response on every
    attempt and the parser fails each time with a generic fault, the fault is
    handled like a transport fault: with [retries = N], the call invokes the
    transport exactly [N + 1] times and throws the fault of the last attempt
    wrapped in a failure with status 0 and the label "Network Error", which
    keeps the message of the fault. *)
Theorem parser_fault_is_wrapped_and_retried (N : Z) (w : World) :
  retries this = JS.ofZ N ->
  0 <= N ->
  (forall k, exists response msg,
      fetch this k url init = Resolved response /\ ok response = true /\
      parser response = Throw (ThrownError msg)) ->
  exists err w',
    call w = (Some (Throw (ThrownFailure err)), w') /\
    fetchCalls w' = (fetchCalls w + Z.to_nat N + 1)%nat /\
    status err = 0 /\ statusText err = "Network Error" /\
    exists response,
      fetch this (fetchCalls w + Z.to_nat N)%nat url init = Resolved response /\
      parser response = Throw (ThrownError (message err)).
Proof.
  intros HN Hn Hall.
  destruct (attemptLoop_exhausts ToNumber Date_getTime clock this T parser
              endpoint options additionalHeaders N
              (fun k err => status err = 0 /\ statusText err = "Network Error" /\
                 exists response, fetch this k url init = Resolved response /\
                   parser response = Throw (ThrownError (message err))) HN)
    with (n := Z.to_nat N) (fuel := loopFuel patience this) (attempt := 0)
         (last := @None MarvinError) (w := w)
    as (err & w' & Hl & Hc & _ & H0 & Ht & Hr).
  - intros w0. destruct (Hall (fetchCalls w0)) as (response & msg & Hf & Hok & Hp).
    destruct (candidate_of_parser_fault w0 response msg Hf Hok Hp) as (now & w1 & Hc).
    exists (faultFailure endpoint options msg "Network Error" now), w1.
    split; [exact Hc|]. split; [reflexivity|]. cbn. repeat split.
    exists response. split; assumption.
  - lia.
  - rewrite (loopFuel_ofZ patience this N HN). lia.
  - exists err, w'. split; [apply requestWithRetries_threw; exact Hl|]. auto.
Qed.

(** C2 (as amended): for the candidate failure of attempt [attempt], the
    call fails at once when the candidate is a client error other than 429,
    when [attempt === retries], and also when the status of the candidate
    is none of a server error, 0 or 429; in every other case the delay is
    awaited and the loop goes on with [attempt + 1]. *)
Theorem retry_decision (attempt : Z) (w w1 : World) (err : MarvinError) :
  cand w = (inr err, w1) ->
  (400 <= status err < 500 /\ status err <> 429 -> once attempt w = (StepThrow err, w1)) /\
  (JS.eqb (JS.ofZ attempt) (retries this) = true ->
   once attempt w = (StepThrow err, w1)) /\
  (~ retryableStatus (status err) -> once attempt w = (StepThrow err, w1)) /\
  (JS.eqb (JS.ofZ attempt) (retries this) = false -> retryableStatus (status err) ->
   once attempt w = (StepRetry err, rested (backoffDelay this attempt err) w1) /\
   forall fuel last,
     JS.leb (JS.ofZ attempt) (retries this) = true ->
     loop (S fuel) attempt last w =
     loop fuel (attempt + 1) (Some err) (rested (backoffDelay this attempt err) w1)).
Proof.
  intros Hc. rewrite attemptOnce_run, Hc. repeat split.
  - intros H. apply isNonRetryableClientError_status in H. rewrite H. reflexivity.
  - intros ->. rewrite orb_true_r. reflexivity.
  - intros H. rewrite (shouldRetry_refused err H), orb_true_r. reflexivity.
  - apply shouldRetry_status in H0. rewrite (shouldRetry_not_client err H0), H0, H.
    reflexivity.
  - intros fuel last Hle. rewrite attemptLoop_step by assumption.
    rewrite attemptOnce_run, Hc.
    apply shouldRetry_status in H0. rewrite (shouldRetry_not_client err H0), H0, H.
    reflexivity.
Qed.

(** C3: a response with a status in [400,499] other than 429 makes the call
    fail on that attempt with the failure built from the response; from the
    first attempt the transport has then been invoked exactly once and no
    delay was awaited, whatever [retries >= 0] is. *)
Theorem client_error_fails_on_first_attempt (w : World) (response : Response) :
  JS.leb (JS.ofZ 0) (retries this) = true ->
  fetch this (fetchCalls w) url init = Resolved response ->
  ok response = false ->
  400 <= respStatus response <= 499 ->
  respStatus response <> 429 ->
  exists now hint w',
    call w = (Some (Throw (ThrownFailure (httpFailure endpoint options response now hint))), w') /\
    fetchCalls w' = S (fetchCalls w) /\
    slept w' = slept w.
Proof.
  intros Hn Hf Hok Hst H429.
  destruct (candidate_of_response w response Hf Hok) as (now & hint & w' & Hc & Hs & Hz & _).
  exists now, hint, w'. split.
  - apply requestWithRetries_first; [exact Hn|]. rewrite attemptOnce_run, Hc.
    replace (isNonRetryableClientError (httpFailure endpoint options response now hint))
      with true; [reflexivity|].
    symmetry. apply isNonRetryableClientError_status. cbn. lia.
  - unfold fetchCalls. rewrite Hs. split; [reflexivity|exact Hz].
Qed.

(** C4: with [retries = N], a transport that fails with a retryable failure
    on every attempt is invoked exactly [N + 1] times, and the call throws
    the failure built from the settlement of the last invocation. *)
Theorem exhaustion_surfaces_last_failure (N : Z) (w : World) :
  retries this = JS.ofZ N ->
  0 <= N ->
  (forall k, retryableSettlement (fetch this k url init)) ->
  exists err w',
    call w = (Some (Throw (ThrownFailure err)), w') /\
    fetchCalls w' = (fetchCalls w + Z.to_nat N + 1)%nat /\
    producedBy (fetch this (fetchCalls w + Z.to_nat N)%nat url init) err.
Proof.
  intros HN Hn Hall.
  destruct (attemptLoop_exhausts ToNumber Date_getTime clock this T parser
              endpoint options additionalHeaders N
              (fun k err => producedBy (fetch this k url init) err) HN)
    with (n := Z.to_nat N) (fuel := loopFuel patience this) (attempt := 0)
         (last := @None MarvinError) (w := w)
    as (err & w' & Hl & Hc & _ & HP).
  - intros w0. apply candidate_of_retryable, Hall.
  - lia.
  - rewrite (loopFuel_ofZ patience this N HN). lia.
  - exists err, w'. split; [apply requestWithRetries_threw; exact Hl|]. auto.
Qed.

(** C5: when attempt [attempt] is followed by a retry, the delay awaited
    before the next attempt is the [retryAfterMs] of the candidate when it has
    one, and [retryDelay * Math.pow(2, attempt)] otherwise. *)
Theorem retry_delay (attempt : Z) (w w' : World) (err : MarvinError) :
  once attempt w = (StepRetry err, w') ->
  slept w' =
  match retryAfterMs err with
  | Some hint => hint
  | None => JS.mul (retryDelay this) (JS.Math_pow2 attempt)
  end :: slept w.
Proof.
  rewrite attemptOnce_run.
  pose proof (candidate_world ToNumber Date_getTime clock this T parser
                endpoint options additionalHeaders w) as [_ Hz].
  destruct (cand w) as [[v|e] w1]; [discriminate|].
  destruct (isNonRetryableClientError e || JS.eqb (JS.ofZ attempt) (retries this)
            || negb (shouldRetry e)); [discriminate|].
  intros [= <- <-]. cbn [snd rested slept] in *. rewrite Hz. unfold backoffDelay.
  destruct (retryAfterMs e); reflexivity.
Qed.

(** C7 (as amended): a failure that a call throws is a failure record, and
    it comes from the transport invocations of the call: either the transport
    rejected with it in one of them, or returned a 2xx response on which the
    parser threw it, and the executor passed it on unchanged; or the executor
    constructed it.  A constructed failure has a [retryAfterMs] that is not
    negative when present, and either the status and the reason phrase of a
    response that is not ok of one of those invocations, copied as they are
    (so an empty reason phrase stays empty), or status 0 with a label of the
    executor. *)
Theorem surfaced_failure_origin (w w' : World) (t : Thrown) :
  call w = (Some (Throw t), w') ->
  exists e,
    t = ThrownFailure e /\
    (passedThrough this T parser endpoint options additionalHeaders
       (fetchCalls w) (fetchCalls w') e \/
     constructed this endpoint options additionalHeaders
       (fetchCalls w) (fetchCalls w') e).
Proof.
  unfold requestWithRetries, andThen.
  pose proof (attemptLoop_invariant
                (fun lo hi e => passed lo hi e \/ built lo hi e)) as Hinv.
  specialize (Hinv (fun lo hi lo' hi' e H Hlo Hhi =>
                      match H with
                      | or_introl P => or_introl (passedThrough_widen lo hi lo' hi' e P Hlo Hhi)
                      | or_intror C => or_intror (constructed_widen lo hi lo' hi' e C Hlo Hhi)
                      end)
                   candidate_origin (loopFuel patience this) 0 None w (fetchCalls w)
                   (le_n _)).
  destruct Hinv as [_ Hinv]; [discriminate|].
  destruct (loop (loopFuel patience this) 0 None w) as [[v|err|[last|]|] w1];
    cbn [fst snd] in *.
  - discriminate.
  - intros [= <- <-]. exists err. split; [reflexivity|exact Hinv].
  - intros [= <- <-]. exists last. split; [reflexivity|exact Hinv].
  - unfold Date_now, pure. intros [= <- _]. eexists. split; [reflexivity|]. right.
    split; [discriminate|]. right. cbn. auto.
  - discriminate.
Qed.

(** With an integer [retries >= 0], and with any number of iterations that
    covers the budget, the attempt loop is always left by a [return] or a
    [throw] of its body: it neither falls through to the fallback after the
    loop nor stays unfinished. *)
Lemma integer_budget_leaves_explicitly (N : Z) (fuel : nat) (w : World) :
  retries this = JS.ofZ N ->
  0 <= N ->
  (loopFuel patience this <= fuel)%nat ->
  leftExplicitly (fst (loop fuel 0 None w)).
Proof.
  intros HN Hn Hfuel. apply (attemptLoop_leftExplicitly _ _ _ _ _ _ _ _ _ N); [exact HN|lia|].
  rewrite (loopFuel_ofZ patience this N HN) in Hfuel. lia.
Qed.

(** With [retries = Infinity] no index is the last one: as long as every
    attempt ends in a failure that the policy retries, the loop is not left,
    however many iterations it is followed for. *)
Lemma infinite_budget_never_ends :
  retries this = JS.PosInf ->
  (forall w, exists err w', cand w = (inr err, w') /\ shouldRetry err = true) ->
  forall (fuel : nat) (attempt : Z) (last : option MarvinError) (w : World),
    fst (loop fuel attempt last w) = Unfinished.
Proof.
  intros Hinf Hall. induction fuel as [|fuel IH]; intros attempt last w; [reflexivity|].
  rewrite attemptLoop_step by (rewrite Hinf; reflexivity).
  rewrite attemptOnce_run. destruct (Hall w) as (err & w1 & Hc & Hr).
  rewrite Hc, (shouldRetry_not_client err Hr), Hr, Hinf. cbn [JS.eqb JS.ofZ orb negb].
  apply IH.
Qed.

End Executor.

(** ** The retry hint *)

Section RetryHint.

Variable ToNumber : string -> JS.number.
Variable Date_getTime : string -> JS.number.
Variable clock : nat -> Z.

Local Abbreviation parseHint := (parseRetryAfter ToNumber Date_getTime clock).

(** C6: a header value that reads as a number of seconds [s] gives the hint
    [Math.max(0, Math.floor(s * 1000))], the product being the one of the
    runtime; otherwise a value that reads as a date gives the milliseconds
    from now to that instant, clamped at 0; a missing or empty header, or a
    value that reads as neither, gives no hint.  A hint is never negative. *)
Theorem parseRetryAfter_cases (value : option string) (w : World) :
  (forall v, value = Some v -> v <> "" -> JS.isNaN (ToNumber v) = false ->
     parseHint value w =
     (Some (JS.Math_max (JS.ofZ 0) (JS.Math_floor (JS.mul (ToNumber v) (JS.ofZ 1000)))), w)) /\
  (forall v, value = Some v -> v <> "" -> JS.isNaN (ToNumber v) = true ->
     JS.isNaN (Date_getTime v) = false ->
     parseHint value w =
     (Some (JS.Math_max (JS.ofZ 0) (JS.sub (Date_getTime v) (JS.ofZ (clock (clockReads w))))),
      ticked w)) /\
  (value = None \/ value = Some "" \/
   (exists v, value = Some v /\ JS.isNaN (ToNumber v) = true /\
              JS.isNaN (Date_getTime v) = true) ->
   parseHint value w = (None, w)) /\
  (forall hint, fst (parseHint value w) = Some hint -> nonNegative hint = true).
Proof.
  repeat split.
  - intros v -> Hv Hn. unfold parseRetryAfter. apply String.eqb_neq in Hv.
    rewrite Hv, Hn. reflexivity.
  - intros v -> Hv Hn Hd. unfold parseRetryAfter. apply String.eqb_neq in Hv.
    rewrite Hv, Hn, Hd. reflexivity.
  - intros [-> | [-> | (v & -> & Hn & Hd)]]; try reflexivity.
    unfold parseRetryAfter. destruct (String.eqb v ""); [reflexivity|].
    rewrite Hn, Hd. reflexivity.
  - apply parseRetryAfter_nonNegative.
Qed.

End RetryHint.

(** ** Construction *)

Lemma blank_token_test (token : string) :
  String.eqb token "" || String.eqb (JS.trim token) "" = onlyWhiteSpace token.
Proof.
  destruct (onlyWhiteSpace token) eqn:E.
  - apply trim_blank in E. rewrite E, String.eqb_refl. apply orb_true_r.
  - apply orb_false_iff. split; apply String.eqb_neq; intros H.
    + subst token. discriminate.
    + apply trim_blank in H. congruence.
Qed.

(** C10: a configuration whose token is absent, empty or made of whitespace
    only is rejected by the constructor with the token error, whatever its
    other fields are; and a client that was constructed holds the token of
    its configuration, which is not blank. *)
Theorem blank_token_is_rejected (globalThis_fetch : Fetch) (config : MarvinClientConfig.t) :
  (match MarvinClientConfig.apiToken config with
   | None => True
   | Some token => onlyWhiteSpace token = true
   end ->
   MarvinClient_new globalThis_fetch config =
   Throw (ThrownError "API token is required and cannot be empty")) /\
  (forall this,
     MarvinClient_new globalThis_fetch config = Normal this ->
     MarvinClientConfig.apiToken config = Some (apiToken this) /\
     onlyWhiteSpace (apiToken this) = false /\ apiToken this <> "").
Proof.
  unfold MarvinClient_new. destruct (MarvinClientConfig.apiToken config) as [token|].
  - rewrite blank_token_test. split.
    + intros ->. reflexivity.
    + intros this. destruct (onlyWhiteSpace token) eqn:E; [discriminate|].
      cbn [JS.nullish]. intros H.
      repeat match type of H with
             | (if ?c then _ else _) = _ => destruct c; [discriminate|]
             end.
      injection H as <-. cbn. repeat split; [exact E|].
      intros ->. discriminate.
  - split; [reflexivity|discriminate].
Qed.

(** ** The requests a call sends *)

Lemma repeat_shift {A : Type} (x : A) (n : nat) (l : list A) :
  (repeat x n ++ x :: l = repeat x (S n) ++ l)%list.
Proof. induction n as [|n IH]; cbn; [reflexivity|]. rewrite IH. reflexivity. Qed.

Lemma floor_nonNegative (q : Q) : (0 <= q)%Q -> 0 <= Qfloor q.
Proof. intros H. apply (Qfloor_resp_le 0 q H). Qed.

Section Outgoing.

Variable ToNumber : string -> JS.number.
Variable Date_getTime : string -> JS.number.
Variable clock : nat -> Z.
Variable JSON_stringify : JS.value -> string.
Variable patience : nat.
Variable this : MarvinClient.

Section AnyParser.

Variable T : Type.
Variable parser : Response -> Completion T.
Variable endpoint : string.
Variable options : RequestInit.t.
Variable additionalHeaders : JS.record.

Local Abbreviation url := (requestUrl this endpoint).
Local Abbreviation init := (requestInit this options additionalHeaders).
Local Abbreviation loop := (fun fuel => attemptLoop ToNumber Date_getTime clock this T parser
                              fuel endpoint options additionalHeaders).
Local Abbreviation cand := (candidate ToNumber Date_getTime clock this T parser
                              endpoint options additionalHeaders).
Local Abbreviation call := (requestWithRetries ToNumber Date_getTime clock patience this
                              T parser endpoint options additionalHeaders).

(** All the loop hands to the transport is the request of the call, once
    per attempt. *)
Lemma attemptLoop_sent (fuel : nat) :
  forall (attempt : Z) (last : option MarvinError) (w : World),
  exists n, sent (snd (loop fuel attempt last w)) = (repeat (url, init) n ++ sent w)%list.
Proof.
  induction fuel as [|fuel IH]; intros attempt last w; [exists 0%nat; reflexivity|].
  destruct (JS.leb (JS.ofZ attempt) (retries this)) eqn:Hle.
  - rewrite attemptLoop_step by assumption. rewrite attemptOnce_run.
    pose proof (candidate_world ToNumber Date_getTime clock this T parser
                  endpoint options additionalHeaders w) as [Hs _].
    destruct (cand w) as [[v|err] w1]; cbn [snd] in Hs.
    + exists 1%nat. cbn. exact Hs.
    + destruct (isNonRetryableClientError err || JS.eqb (JS.ofZ attempt) (retries this)
                || negb (shouldRetry err)).
      * exists 1%nat. cbn. exact Hs.
      * destruct (IH (attempt + 1) (Some err)
                    (rested (backoffDelay this attempt err) w1)) as [n Hn].
        exists (S n). rewrite Hn. cbn [rested sent]. rewrite Hs. apply repeat_shift.
  - rewrite attemptLoop_falls_through by assumption. exists 0%nat. reflexivity.
Qed.

Lemma requestWithRetries_world (w : World) :
  sent (snd (call w)) = sent (snd (loop (loopFuel patience this) 0 None w)) /\
  slept (snd (call w)) = slept (snd (loop (loopFuel patience this) 0 None w)).
Proof.
  unfold requestWithRetries, andThen.
  destruct (loop (loopFuel patience this) 0 None w) as [[v|err|[last|]|] w1];
    split; reflexivity.
Qed.

Lemma requestWithRetries_sent (w : World) :
  exists n, sent (snd (call w)) = (repeat (url, init) n ++ sent w)%list.
Proof.
  destruct (requestWithRetries_world w) as [-> _].
  apply attemptLoop_sent.
Qed.

(** With a finite budget, from an index within it, the loop sends the
    request of the call [n] times, [1 <= n], at most once per remaining
    index. *)
Lemma attemptLoop_counts (q : Q) (fuel : nat) :
  retries this = JS.Fin q ->
  forall (attempt : Z) (last : option MarvinError) (w : World),
    attempt <= Qfloor q ->
    (0 < fuel)%nat ->
    exists n,
      (1 <= n <= Z.to_nat (Qfloor q - attempt) + 1)%nat /\
      sent (snd (loop fuel attempt last w)) = (repeat (url, init) n ++ sent w)%list.
Proof.
  intros Hq.
  induction fuel as [|fuel IH]; intros attempt last w Hle Hfuel; [lia|].
  rewrite attemptLoop_step by (rewrite Hq, leb_Fin; apply Z.leb_le; exact Hle).
  rewrite attemptOnce_run.
  pose proof (candidate_world ToNumber Date_getTime clock this T parser
                endpoint options additionalHeaders w) as [Hs _].
  destruct (cand w) as [[v|err] w1]; cbn [snd] in Hs.
  - exists 1%nat. cbn. rewrite Hs. split; [lia|reflexivity].
  - destruct (isNonRetryableClientError err || JS.eqb (JS.ofZ attempt) (retries this)
              || negb (shouldRetry err)) eqn:E.
    + exists 1%nat. cbn. rewrite Hs. split; [lia|reflexivity].
    + set (w2 := rested (backoffDelay this attempt err) w1).
      assert (sent w2 = (url, init) :: sent w) as Hs2 by exact Hs.
      destruct fuel as [|fuel'].
      * exists 1%nat. cbn [attemptLoop pure snd repeat app]. rewrite Hs2.
        split; [lia|reflexivity].
      * destruct (Z.leb_spec (attempt + 1) (Qfloor q)) as [Hnext|Hnext].
        -- destruct (IH (attempt + 1) (Some err) w2) as (n & Hn & Hsent); [lia | lia |].
           exists (S n). rewrite Hsent, Hs2. split; [lia|apply repeat_shift].
        -- rewrite attemptLoop_falls_through
             by (rewrite Hq, leb_Fin; apply Z.leb_gt; exact Hnext).
           exists 1%nat. cbn [snd repeat app]. rewrite Hs2. split; [lia|reflexivity].
Qed.

(** The requests of a call, counted. *)
Lemma requestWithRetries_counts (q : Q) (w : World) :
  retries this = JS.Fin q ->
  (0 <= q)%Q ->
  exists n,
    (1 <= n <= Z.to_nat (Qfloor q) + 1)%nat /\
    sent (snd (call w)) = (repeat (url, init) n ++ sent w)%list.
Proof.
  intros Hq Hn. destruct (requestWithRetries_world w) as [-> _].
  destruct (attemptLoop_counts q (loopFuel patience this) Hq 0 None w) as (n & Hb & Hs).
  - apply floor_nonNegative, Hn.
  - rewrite (loopFuel_Fin patience this q Hq). lia.
  - rewrite Z.sub_0_r in Hb. exists n. split; assumption.
Qed.

(** With an integer budget, the loop awaits one delay fewer than it sends
    requests. *)
Lemma attemptLoop_delays (N : Z) (fuel : nat) :
  retries this = JS.ofZ N ->
  forall (attempt : Z) (last : option MarvinError) (w : World),
    attempt <= N ->
    (Z.to_nat (N - attempt) < fuel)%nat ->
    exists n,
      sent (snd (loop fuel attempt last w)) = (repeat (url, init) n ++ sent w)%list /\
      (length (slept (snd (loop fuel attempt last w))) + 1 = length (slept w) + n)%nat.
Proof.
  intros HN.
  induction fuel as [|fuel IH]; intros attempt last w Hle Hfuel; [lia|].
  rewrite attemptLoop_step by (rewrite HN, leb_ofZ; apply Z.leb_le; exact Hle).
  rewrite attemptOnce_run.
  pose proof (candidate_world ToNumber Date_getTime clock this T parser
                endpoint options additionalHeaders w) as [Hs Hz].
  destruct (cand w) as [[v|err] w1]; cbn [snd] in Hs, Hz.
  - exists 1%nat. cbn. rewrite Hs, Hz. split; [reflexivity|lia].
  - rewrite HN, eqb_ofZ.
    destruct (isNonRetryableClientError err || (attempt =? N)
              || negb (shouldRetry err)) eqn:E.
    + exists 1%nat. cbn. rewrite Hs, Hz. split; [reflexivity|lia].
    + apply orb_false_iff in E. destruct E as [E _].
      apply orb_false_iff in E. destruct E as [_ E]. apply Z.eqb_neq in E.
      destruct (IH (attempt + 1) (Some err) (rested (backoffDelay this attempt err) w1))
        as (n & Hsent & Hslept); [lia | lia |].
      exists (S n). rewrite Hsent. cbn [rested sent slept length] in *.
      rewrite Hs. rewrite Hz in Hslept. split; [apply repeat_shift|lia].
Qed.

End AnyParser.

Local Abbreviation posted := (post ToNumber Date_getTime clock JSON_stringify patience this).

(** What [post] attaches to the requests it sends: the serialized body when
    the body is truthy, nothing otherwise. *)
Lemma post_body (endpoint : string) (body : JS.value) (headers : option JS.record)
    (w : World) :
  exists n url sentHeaders sentSignal,
    sent (snd (posted endpoint body headers w)) =
    (repeat (url, RequestInit.mk (Some "POST") sentHeaders
                    (if JS.truthy body then Some (JSON_stringify body) else None)
                    sentSignal) n
     ++ sent w)%list.
Proof.
  unfold post, request.
  destruct (JS.truthy body);
    match goal with
    | |- context [requestWithRetries _ _ _ _ _ ?T ?p ?e ?o ?h w] =>
        destruct (requestWithRetries_sent T p e o h w) as [n Hn];
        exists n; eexists _, _, _; rewrite Hn; reflexivity
    end.
Qed.

(** C9 (as amended): with a finite [retries >= 0], a [post] sends at least
    one request, and every request it sends is a POST to [baseUrl + endpoint]
    that carries the serialized body when the body is truthy (every object
    is) and no body when the body is omitted or falsy, as [0], [false], the
    empty string and [null] are. *)
Theorem post_attaches_body_iff_truthy (endpoint : string) (body : JS.value)
    (headers : option JS.record) (q : Q) (w : World) :
  retries this = JS.Fin q ->
  (0 <= q)%Q ->
  exists n,
    (1 <= n <= Z.to_nat (Qfloor q) + 1)%nat /\
    sent (snd (posted endpoint body headers w)) =
    (repeat ((baseUrl this ++ endpoint)%string,
             RequestInit.mk (Some "POST")
               (Some (JS.spread [("Content-Type", "application/json");
                                 ("X-API-Token", apiToken this)]
                                (JS.nullish headers [])))
               (if JS.truthy body then Some (JSON_stringify body) else None)
               (Some (timeout this))) n
     ++ sent w)%list.
Proof.
  intros Hq Hn. unfold post, request.
  destruct (JS.truthy body);
    match goal with
    | |- context [requestWithRetries _ _ _ _ _ ?T ?p ?e ?o ?h w] =>
        destruct (requestWithRetries_counts T p e o h q w Hq Hn) as (n & Hb & Hs);
        exists n; split; [exact Hb|]; rewrite Hs; reflexivity
    end.
Qed.

End Outgoing.

(** ** Runs of the samples *)

Import Samples.

(** 500, 500, then 200: three invocations, and the delays 100 and 200. *)
Example flaky_run :
  let run := get noNumber noNumber epoch patient (client flaky 3 100)
               "/todayItems" None World0 in
  fst run = Some (Normal success) /\
  fetchCalls (snd run) = 3%nat /\
  slept (snd run) = [JS.ofZ 200; JS.ofZ 100].
Proof. vm_compute. repeat split. Qed.

(** A 400 with three retries allowed: one invocation. *)
Example bad_request_run :
  let run := get noNumber noNumber epoch patient
               (client (failing 400 "Bad Request" None) 3 100)
               "/addTask" None World0 in
  fetchCalls (snd run) = 1%nat /\
  exists e, fst run = Some (Throw (ThrownFailure e)) /\ message e = "HTTP 400: Bad Request".
Proof. vm_compute. split; [reflexivity|]. eexists. split; reflexivity. Qed.

(** A 429 whose retry hint is "2": the next attempt waits 2000 ms. *)
Example rate_limited_run :
  let step := attemptOnce secondsOnly noNumber epoch
                (client (failing 429 "Too Many Requests" (Some "2")) 3 100)
                JS.value jsonParser "/todayItems" getOptions [] 0 World0 in
  slept (snd step) = [JS.ofZ 2000].
Proof. vm_compute. reflexivity. Qed.

(** The products of the runtime are rounded: the binary64 nearest to 4.35
    times 1000 is 4350, although the exact product is below 4350; and 0.1
    times 3 is not the binary64 nearest to 0.3. *)
Example rounded_products :
  JS.mul (decimals "4.35") (JS.ofZ 1000) = JS.ofZ 4350 /\
  Qfloor ((2448832297382707 # 562949953421312) * inject_Z 1000) = 4349 /\
  JS.Math_floor (JS.mul (decimals "1.001") (JS.ofZ 1000)) = JS.ofZ 1000 /\
  JS.mul (JS.Fin (3602879701896397 # 36028797018963968)) (JS.ofZ 3)
    = JS.Fin (1351079888211149 # 4503599627370496) /\
  JS.Math_pow2 1023 = JS.Fin (inject_Z (2 ^ 1023)) /\
  JS.Math_pow2 1024 = JS.PosInf /\
  JS.mul (JS.ofZ 100) (JS.Math_pow2 1018) = JS.PosInf.
Proof. vm_compute. repeat split. Qed.

(** C1 (as stated) fails: with three retries allowed, 2xx responses whose
    body does not parse make the call invoke the transport four times, not
    once, and the call does not throw the fault of the parser as it is. *)
Lemma parser_fault_not_surfaced_as_is :
  let c := client emptyBody 3 100 in
  let run := get noNumber noNumber epoch patient c "/kudos" None World0 in
  jsonParser (okResponse (Throw (ThrownError "Unexpected end of JSON input"))) =
    Throw (ThrownError "Unexpected end of JSON input") /\
  fetchCalls (snd run) = 4%nat /\
  fetchCalls (snd run) <> 1%nat /\
  fst run <> Some (Throw (ThrownError "Unexpected end of JSON input")).
Proof. vm_compute. repeat split; discriminate. Qed.

(** Three retries allowed and bodies that never parse: four invocations and a
    wrapped fault. *)
Lemma parser_fault_is_wrapped_and_retried_witness :
  let c := client emptyBody 3 100 in
  retries c = JS.ofZ 3 /\
  exists err w',
    requestWithRetries noNumber noNumber epoch patient c JS.value jsonParser
      "/kudos" getOptions [] World0 = (Some (Throw (ThrownFailure err)), w') /\
    fetchCalls w' = (fetchCalls World0 + Z.to_nat 3 + 1)%nat /\
    status err = 0 /\ statusText err = "Network Error" /\
    exists response,
      fetch c (fetchCalls World0 + Z.to_nat 3)%nat
        (requestUrl c "/kudos") (requestInit c getOptions []) = Resolved response /\
      jsonParser response = Throw (ThrownError (message err)).
Proof.
  cbv zeta. split; [reflexivity|].
  apply (parser_fault_is_wrapped_and_retried noNumber noNumber epoch patient
           (client emptyBody 3 100) JS.value jsonParser "/kudos" getOptions [] 3 World0).
  - reflexivity.
  - lia.
  - intros k. eexists _, _. repeat split.
Defined.

(** C2 (as stated) fails: a 304 is not a client error and attempt 0 is not
    the last attempt, yet the call fails at once instead of going on to
    attempt 1, and the transport is invoked only once. *)
Lemma not_modified_fails_at_once :
  let c := client (failing 304 "Not Modified" None) 3 100 in
  let step := attemptOnce noNumber noNumber epoch c JS.value jsonParser
                "/todayItems" getOptions [] 0 World0 in
  let run := get noNumber noNumber epoch patient c "/todayItems" None World0 in
  JS.eqb (JS.ofZ 0) (retries c) = false /\
  (exists err, fst step = StepThrow err /\ status err = 304 /\ isClientError err = false) /\
  (forall err, fst step <> StepRetry err) /\
  fetchCalls (snd run) = 1%nat.
Proof.
  vm_compute. repeat split; try discriminate.
  eexists. repeat split.
Qed.

(** A 503 at attempt 0, three retries allowed: the loop body ends in a retry. *)
Lemma retry_decision_witness :
  let c := client (failing 503 "Service Unavailable" None) 3 100 in
  exists err w1,
    candidate noNumber noNumber epoch c JS.value jsonParser
      "/todayItems" getOptions [] World0 = (inr err, w1) /\
    attemptOnce noNumber noNumber epoch c JS.value jsonParser
      "/todayItems" getOptions [] 0 World0 =
    (StepRetry err, rested (backoffDelay c 0 err) w1).
Proof.
  cbv zeta. eexists _, _. split; [reflexivity|].
  refine (proj1 (proj2 (proj2 (proj2
    (retry_decision noNumber noNumber epoch
       (client (failing 503 "Service Unavailable" None) 3 100) JS.value jsonParser
       "/todayItems" getOptions [] 0 World0 _ _ eq_refl))) _ _)).
  - reflexivity.
  - left. cbn. lia.
Defined.

(** A 404 with three retries allowed: the call fails after one invocation. *)
Lemma client_error_fails_on_first_attempt_witness :
  let c := client (failing 404 "Not Found" None) 3 100 in
  JS.leb (JS.ofZ 0) (retries c) = true /\
  exists now hint w',
    requestWithRetries noNumber noNumber epoch patient c JS.value jsonParser
      "/habit?id=nonexistent" getOptions [] World0 =
    (Some (Throw (ThrownFailure
       (httpFailure "/habit?id=nonexistent" getOptions
          (failResponse 404 "Not Found" None) now hint))), w') /\
    fetchCalls w' = S (fetchCalls World0) /\
    slept w' = slept World0.
Proof.
  cbv zeta. split; [reflexivity|].
  apply (client_error_fails_on_first_attempt noNumber noNumber epoch patient
           (client (failing 404 "Not Found" None) 3 100) JS.value jsonParser
           "/habit?id=nonexistent" getOptions [] World0
           (failResponse 404 "Not Found" None)).
  - reflexivity.
  - reflexivity.
  - reflexivity.
  - cbn. lia.
  - cbn. lia.
Defined.

(** Three retries allowed against a transport that always answers 500. *)
Lemma exhaustion_surfaces_last_failure_witness :
  let c := client (failing 500 "Internal Server Error" None) 3 100 in
  exists err w',
    requestWithRetries noNumber noNumber epoch patient c JS.value jsonParser
      "/todayItems" getOptions [] World0 = (Some (Throw (ThrownFailure err)), w') /\
    fetchCalls w' = (fetchCalls World0 + Z.to_nat 3 + 1)%nat /\
    producedBy (fetch c (fetchCalls World0 + Z.to_nat 3)%nat
                  (requestUrl c "/todayItems") (requestInit c getOptions [])) err.
Proof.
  cbv zeta.
  apply (exhaustion_surfaces_last_failure noNumber noNumber epoch patient
           (client (failing 500 "Internal Server Error" None) 3 100) JS.value jsonParser
           "/todayItems" getOptions [] 3 World0).
  - reflexivity.
  - lia.
  - intros k. cbn. split; [reflexivity|]. left. lia.
Defined.

(** A 429 with the hint "2" at attempt 0, and a 503 without hint at
    attempt 1 with a base delay of 100 ms: waits of 2000 ms and of 200 ms. *)
Lemma retry_delay_witness :
  (exists err w',
     attemptOnce secondsOnly noNumber epoch
       (client (failing 429 "Too Many Requests" (Some "2")) 3 100) JS.value jsonParser
       "/todayItems" getOptions [] 0 World0 = (StepRetry err, w') /\
     retryAfterMs err = Some (JS.ofZ 2000) /\
     slept w' = JS.ofZ 2000 :: slept World0) /\
  (exists err w',
     attemptOnce noNumber noNumber epoch
       (client (failing 503 "Service Unavailable" None) 3 100) JS.value jsonParser
       "/todayItems" getOptions [] 1 World0 = (StepRetry err, w') /\
     retryAfterMs err = None /\
     slept w' = JS.ofZ 200 :: slept World0).
Proof.
  split; eexists _, _; (split; [reflexivity|]); (split; [reflexivity|]).
  - eapply eq_trans;
      [apply (retry_delay secondsOnly noNumber epoch
                (client (failing 429 "Too Many Requests" (Some "2")) 3 100)
                JS.value jsonParser "/todayItems" getOptions [] 0 World0);
       reflexivity|].
    vm_compute. reflexivity.
  - eapply eq_trans;
      [apply (retry_delay noNumber noNumber epoch
                (client (failing 503 "Service Unavailable" None) 3 100)
                JS.value jsonParser "/todayItems" getOptions [] 1 World0);
       reflexivity|].
    vm_compute. reflexivity.
Defined.

(** Headers that read as seconds: "2" gives 2000 ms, "4.35" gives 4350 ms,
    "1.001" gives 1000 ms and "-1" gives 0 ms; a header that reads as a date
    ten seconds ahead gives 10000 ms; one that reads as neither gives no
    hint. *)
Lemma parseRetryAfter_cases_witness :
  parseRetryAfter decimals noNumber epoch (Some "2") World0 =
    (Some (JS.ofZ 2000), World0) /\
  parseRetryAfter decimals noNumber epoch (Some "4.35") World0 =
    (Some (JS.ofZ 4350), World0) /\
  parseRetryAfter decimals noNumber epoch (Some "1.001") World0 =
    (Some (JS.ofZ 1000), World0) /\
  parseRetryAfter decimals noNumber epoch (Some "-1") World0 =
    (Some (JS.ofZ 0), World0) /\
  parseRetryAfter noNumber oneDate epoch (Some "Wed, 21 Oct 2015 07:28:00 GMT") World0 =
    (Some (JS.ofZ 10000), ticked World0) /\
  parseRetryAfter noNumber noNumber epoch (Some "soon") World0 = (None, World0).
Proof.
  repeat apply conj.
  - eapply eq_trans;
      [refine (proj1 (parseRetryAfter_cases decimals noNumber epoch (Some "2") World0)
                 "2" eq_refl _ eq_refl); discriminate|].
    vm_compute. reflexivity.
  - eapply eq_trans;
      [refine (proj1 (parseRetryAfter_cases decimals noNumber epoch (Some "4.35") World0)
                 "4.35" eq_refl _ eq_refl); discriminate|].
    vm_compute. reflexivity.
  - eapply eq_trans;
      [refine (proj1 (parseRetryAfter_cases decimals noNumber epoch (Some "1.001") World0)
                 "1.001" eq_refl _ eq_refl); discriminate|].
    vm_compute. reflexivity.
  - eapply eq_trans;
      [refine (proj1 (parseRetryAfter_cases decimals noNumber epoch (Some "-1") World0)
                 "-1" eq_refl _ eq_refl); discriminate|].
    vm_compute. reflexivity.
  - eapply eq_trans;
      [refine (proj1 (proj2 (parseRetryAfter_cases noNumber oneDate epoch
                               (Some "Wed, 21 Oct 2015 07:28:00 GMT") World0))
                 "Wed, 21 Oct 2015 07:28:00 GMT" eq_refl _ eq_refl eq_refl); discriminate|].
    vm_compute. reflexivity.
  - refine (proj1 (proj2 (proj2 (parseRetryAfter_cases noNumber noNumber epoch
                                   (Some "soon") World0))) _).
    right. right. exists "soon". repeat split.
Defined.

(** C7 (as stated) fails: a response whose reason phrase is empty gives a
    failure whose [statusText] is empty. *)
Lemma empty_reason_phrase_is_kept :
  let c := client (failing 503 "" None) 0 100 in
  let run := get noNumber noNumber epoch patient c "/goals" None World0 in
  exists e,
    fst run = Some (Throw (ThrownFailure e)) /\
    status e = 503 /\ statusText e = "" /\ message e = "HTTP 503: ".
Proof. vm_compute. eexists. repeat split. Qed.

(** The failure of a 503 response with an empty reason phrase was not passed
    through: it is constructed from the response of the one invocation of
    the call. *)
Lemma surfaced_failure_origin_witness :
  let c := client (failing 503 "" None) 0 100 in
  exists e w',
    requestWithRetries noNumber noNumber epoch patient c JS.value jsonParser
      "/goals" getOptions [] World0 = (Some (Throw (ThrownFailure e)), w') /\
    fetchCalls World0 = 0%nat /\ fetchCalls w' = 1%nat /\
    statusText e = "" /\
    constructed c "/goals" getOptions [] (fetchCalls World0) (fetchCalls w') e.
Proof.
  cbv zeta. eexists _, _. split; [reflexivity|].
  split; [reflexivity|]. split; [reflexivity|]. split; [reflexivity|].
  destruct (surfaced_failure_origin noNumber noNumber epoch patient
              (client (failing 503 "" None) 0 100) JS.value jsonParser
              "/goals" getOptions [] World0 _ _ eq_refl) as (e & He & [Hp|Hc]).
  - exfalso. destruct Hp as (k & _ & [H|(response & H & Hok & _)]).
    + discriminate H.
    + injection H as <-. discriminate Hok.
  - injection He as He. subst e. exact Hc.
Defined.

(** C8 (the code at the failing inputs): the constructor accepts
    [retries: 1.5], [retries: NaN] and [retries: Infinity], none being
    [< 0].  With 1.5, against a transport that always answers 500,
    [attempt === retries] holds at no index: the body retries at the indices
    0 and 1, a delay is awaited after each of the two invocations, the test
    [2 <= 1.5] ends the loop, which falls through, and the fallback throws the
    last failure.  With NaN the test [0 <= NaN] fails at once: the transport
    is never invoked and the fallback throws the synthetic "Retry Exhausted"
    failure.  With Infinity the call is still pending after the nine
    iterations it is followed for. *)
Theorem fallback_reached_outside_integer_budget :
  let transport := failing 500 "Internal Server Error" None in
  let fractional := clientWith transport (JS.Fin (3 # 2)) 100 in
  let undefined := clientWith transport JS.NaN 100 in
  let unbounded := clientWith transport JS.PosInf 100 in
  let loop this :=
    attemptLoop noNumber noNumber epoch this JS.value jsonParser (loopFuel patient this)
      "/todayItems" getOptions [] 0 None World0 in
  let call this := get noNumber noNumber epoch patient this "/todayItems" None World0 in
  MarvinClient_new flaky (configWith (JS.Fin (3 # 2)) transport) = Normal fractional /\
  (exists last,
     fst (loop fractional) = FellThrough (Some last) /\
     fst (call fractional) = Some (Throw (ThrownFailure last)) /\
     status last = 500) /\
  ~ leftExplicitly (fst (loop fractional)) /\
  fetchCalls (snd (call fractional)) = 2%nat /\
  slept (snd (call fractional)) = [JS.ofZ 200; JS.ofZ 100] /\
  MarvinClient_new flaky (configWith JS.NaN transport) = Normal undefined /\
  fst (loop undefined) = FellThrough None /\
  (exists e,
     fst (call undefined) = Some (Throw (ThrownFailure e)) /\
     status e = 0 /\ statusText e = "Retry Exhausted" /\
     message e = "Request failed after all retries") /\
  fetchCalls (snd (call undefined)) = 0%nat /\
  MarvinClient_new flaky (configWith JS.PosInf transport) = Normal unbounded /\
  fst (call unbounded) = None /\
  fetchCalls (snd (call unbounded)) = 9%nat.
Proof.
  vm_compute. repeat split; try (eexists; repeat split); auto.
Qed.

(** C9 (as stated) fails: posting the body [0], [false] or the empty string
    sends one request, and that request carries no body: the JSON text of
    the body is not attached. *)
Lemma falsy_body_is_not_attached :
  let c := client (always (Resolved (okResponse (Normal success)))) 3 100 in
  let requests body :=
    sent (snd (post noNumber noNumber epoch stringify patient c
                 "/updateHabit" body None World0)) in
  let bare :=
    (requestUrl c "/updateHabit",
     requestInit c (RequestInit.mk (Some "POST") None None None) []) in
  RequestInit.body (snd bare) = None /\
  requests (JS.Num (JS.ofZ 0)) = [bare] /\
  requests (JS.Boolean false) = [bare] /\
  requests (JS.Str "") = [bare] /\
  RequestInit.body (snd bare) <> Some (stringify (JS.Num (JS.ofZ 0))).
Proof. vm_compute. repeat split. discriminate. Qed.

(** Posting an object attaches its text; posting [0] attaches nothing. *)
Lemma post_attaches_body_iff_truthy_witness :
  let c := client (always (Resolved (okResponse (Normal success)))) 3 100 in
  let requests body :=
    sent (snd (post noNumber noNumber epoch stringify patient c
                 "/updateHabit" body None World0)) in
  let request text :=
    ((baseUrl c ++ "/updateHabit")%string,
     RequestInit.mk (Some "POST")
       (Some (JS.spread [("Content-Type", "application/json");
                         ("X-API-Token", apiToken c)] (JS.nullish None [])))
       text (Some (timeout c))) in
  retries c = JS.Fin (inject_Z 3) /\
  (exists n, (1 <= n <= Z.to_nat (Qfloor (inject_Z 3)) + 1)%nat /\
     requests success = (repeat (request (Some (stringify success))) n ++ sent World0)%list) /\
  (exists n, (1 <= n <= Z.to_nat (Qfloor (inject_Z 3)) + 1)%nat /\
     requests (JS.Num (JS.ofZ 0)) = (repeat (request None) n ++ sent World0)%list).
Proof.
  cbv zeta. split; [reflexivity|]. split.
  - apply (post_attaches_body_iff_truthy noNumber noNumber epoch stringify patient
             (client (always (Resolved (okResponse (Normal success)))) 3 100)
             "/updateHabit" success None (inject_Z 3) World0).
    + reflexivity.
    + discriminate.
  - apply (post_attaches_body_iff_truthy noNumber noNumber epoch stringify patient
             (client (always (Resolved (okResponse (Normal success)))) 3 100)
             "/updateHabit" (JS.Num (JS.ofZ 0)) None (inject_Z 3) World0).
    + reflexivity.
    + discriminate.
Defined.

(** A token of spaces next to an invalid timeout, an absent token, and a
    proper token. *)
Lemma blank_token_is_rejected_witness :
  MarvinClient_new flaky (config (Some "   ") (-5)) =
    Throw (ThrownError "API token is required and cannot be empty") /\
  MarvinClient_new flaky (config None 10000) =
    Throw (ThrownError "API token is required and cannot be empty") /\
  exists this,
    MarvinClient_new flaky (config (Some "retry-test-token") 10000) = Normal this /\
    onlyWhiteSpace (apiToken this) = false.
Proof.
  split; [|split].
  - apply (proj1 (blank_token_is_rejected flaky (config (Some "   ") (-5)))).
    reflexivity.
  - apply (proj1 (blank_token_is_rejected flaky (config None 10000))).
    exact I.
  - eexists. split; [reflexivity|].
    apply (proj2 (blank_token_is_rejected flaky (config (Some "retry-test-token") 10000))).
    reflexivity.
Defined.

(** ** Further properties: classification and policy *)

(** X1: the classes of [errors.ts] do not overlap: a client error is
    neither a server error nor retryable, and a server error is retryable
    and not a client error; status 0 is retryable and in neither class. *)
Theorem classification_exclusive (e : MarvinError) :
  (isClientError e = true -> isServerError e = false /\ isRetryable e = false) /\
  (isServerError e = true -> isClientError e = false /\ isRetryable e = true) /\
  (status e = 0 -> isClientError e = false /\ isServerError e = false /\ isRetryable e = true).
Proof.
  unfold isRetryable, isClientError, isServerError. repeat split.
  - apply andb_true_iff in H. destruct H as [H1 H2].
    apply Z.leb_le in H1. apply Z.ltb_lt in H2. apply Z.leb_gt. lia.
  - apply andb_true_iff in H. destruct H as [H1 H2].
    apply Z.leb_le in H1. apply Z.ltb_lt in H2.
    apply orb_false_iff. split; [apply Z.leb_gt|apply Z.eqb_neq]; lia.
  - apply Z.leb_le in H. apply andb_false_iff. right. apply Z.ltb_ge. lia.
  - rewrite H. reflexivity.
  - rewrite H. reflexivity.
  - rewrite H. reflexivity.
  - rewrite H. reflexivity.
Qed.

(** X2: the policy of the executor and [isRetryable] differ on status 429
    only: a 429 is a client error that [isRetryable] rejects and the executor
    retries; on every other status the executor retries exactly what
    [isRetryable] accepts, and it never both retries and treats as final. *)
Theorem policy_differs_on_429_only (e : MarvinError) :
  (status e = 429 ->
   isClientError e = true /\ isRetryable e = false /\
   shouldRetry e = true /\ isNonRetryableClientError e = false) /\
  (status e <> 429 ->
   shouldRetry e = isRetryable e /\ isNonRetryableClientError e = isClientError e) /\
  (isNonRetryableClientError e && shouldRetry e = false).
Proof.
  repeat split.
  - unfold isClientError. rewrite H. reflexivity.
  - unfold isRetryable, isServerError. rewrite H. reflexivity.
  - unfold shouldRetry. rewrite H. apply orb_true_r.
  - unfold isNonRetryableClientError. rewrite H. apply andb_false_r.
  - unfold shouldRetry. apply Z.eqb_neq in H. rewrite H. apply orb_false_r.
  - unfold isNonRetryableClientError. apply Z.eqb_neq in H. rewrite H. apply andb_true_r.
  - destruct (shouldRetry e) eqn:E.
    + rewrite (shouldRetry_not_client e E). reflexivity.
    + apply andb_false_r.
Qed.

(** ** Further properties: construction *)

Section Construction.

Variable globalThis_fetch : Fetch.
Variable config : MarvinClientConfig.t.

(** X3: the constructor accepts a configuration exactly when its token is
    present and not blank and, after the defaults (timeout 10000, retries 3,
    retry delay 1000), the timeout is not [<= 0], the retries are not [< 0]
    and the retry delay is not [<= 0]; the client then holds the token and
    the defaulted fields, with an absent or empty base URL replaced by the
    default one. *)
Theorem constructor_accepts_iff (this : MarvinClient) :
  MarvinClient_new globalThis_fetch config = Normal this <->
  exists token,
    MarvinClientConfig.apiToken config = Some token /\
    onlyWhiteSpace token = false /\
    this = configured globalThis_fetch config token /\
    JS.leb (timeout this) (JS.ofZ 0) = false /\
    JS.ltb (retries this) (JS.ofZ 0) = false /\
    JS.leb (retryDelay this) (JS.ofZ 0) = false.
Proof.
  unfold MarvinClient_new. destruct (MarvinClientConfig.apiToken config) as [token|].
  - rewrite blank_token_test. cbn [JS.nullish]. fold (configured globalThis_fetch config token).
    set (c := configured globalThis_fetch config token).
    split.
    + destruct (onlyWhiteSpace token) eqn:Et; [discriminate|].
      destruct (JS.leb (timeout c) (JS.ofZ 0)) eqn:E1; [discriminate|].
      destruct (JS.ltb (retries c) (JS.ofZ 0)) eqn:E2; [discriminate|].
      destruct (JS.leb (retryDelay c) (JS.ofZ 0)) eqn:E3; [discriminate|].
      intros [= <-]. exists token. repeat split; assumption.
    + intros (token' & [= <-] & Et & -> & E1 & E2 & E3).
      subst c. rewrite Et, E1, E2, E3. reflexivity.
  - split; [discriminate|]. intros (token & H & _). discriminate.
Qed.

(** X4: when several fields are invalid the constructor reports the first
    in the order token, timeout, retries, retry delay: with a proper token, a
    timeout [<= 0] gives the timeout error whatever the other two are; with
    a valid timeout, retries [< 0] give the retries error whatever the
    delay is; and only then a retry delay [<= 0] gives the delay error. *)
Theorem constructor_reports_first_invalid (token : string) :
  MarvinClientConfig.apiToken config = Some token ->
  onlyWhiteSpace token = false ->
  let c := configured globalThis_fetch config token in
  (JS.leb (timeout c) (JS.ofZ 0) = true ->
   MarvinClient_new globalThis_fetch config =
   Throw (ThrownError "Timeout must be greater than 0")) /\
  (JS.leb (timeout c) (JS.ofZ 0) = false -> JS.ltb (retries c) (JS.ofZ 0) = true ->
   MarvinClient_new globalThis_fetch config =
   Throw (ThrownError "Retries must be 0 or greater")) /\
  (JS.leb (timeout c) (JS.ofZ 0) = false -> JS.ltb (retries c) (JS.ofZ 0) = false ->
   JS.leb (retryDelay c) (JS.ofZ 0) = true ->
   MarvinClient_new globalThis_fetch config =
   Throw (ThrownError "Retry delay must be greater than 0")).
Proof.
  intros Htok Et c. unfold MarvinClient_new. rewrite Htok, blank_token_test, Et.
  cbn [JS.nullish]. fold (configured globalThis_fetch config token). fold c.
  repeat split.
  - intros ->. reflexivity.
  - intros -> ->. reflexivity.
  - intros -> -> ->. reflexivity.
Qed.

End Construction.

(** ** Further properties: the attempts of a call *)

Lemma leb_within (a : Z) (q : Q) : a <= Qfloor q -> JS.leb (JS.ofZ a) (JS.Fin q) = true.
Proof. intros H. rewrite leb_Fin. apply Z.leb_le. exact H. Qed.

Lemma eqb_below (a : Z) (q : Q) : a < Qfloor q -> JS.eqb (JS.ofZ a) (JS.Fin q) = false.
Proof.
  intros H. destruct (JS.eqb (JS.ofZ a) (JS.Fin q)) eqn:E; [|reflexivity].
  apply eqb_Fin in E. lia.
Qed.

Lemma within_floor (a : Z) (q : Q) : (inject_Z a <= q)%Q -> a <= Qfloor q.
Proof. intros H. rewrite <- (Qfloor_Z a). apply Qfloor_resp_le. exact H. Qed.

Section Attempts.

Variable ToNumber : string -> JS.number.
Variable Date_getTime : string -> JS.number.
Variable clock : nat -> Z.
Variable patience : nat.
Variable this : MarvinClient.
Variable T : Type.
Variable parser : Response -> Completion T.
Variable endpoint : string.
Variable options : RequestInit.t.
Variable additionalHeaders : JS.record.

Local Abbreviation url := (requestUrl this endpoint).
Local Abbreviation init := (requestInit this options additionalHeaders).
Local Abbreviation method := (requestMethod options).
Local Abbreviation core := (makeRequestCore ToNumber Date_getTime clock this T parser
                              endpoint options additionalHeaders).
Local Abbreviation once := (attemptOnce ToNumber Date_getTime clock this T parser
                              endpoint options additionalHeaders).
Local Abbreviation loop := (fun fuel => attemptLoop ToNumber Date_getTime clock this T parser
                              fuel endpoint options additionalHeaders).
Local Abbreviation cand := (candidate ToNumber Date_getTime clock this T parser
                              endpoint options additionalHeaders).
Local Abbreviation call := (requestWithRetries ToNumber Date_getTime clock patience this
                              T parser endpoint options additionalHeaders).

(** X5: with a finite [retries >= 0], a call hands the transport one and
    the same request (the URL [baseUrl + endpoint] and the descriptor built
    from the options) on every attempt, at least once and at most
    [floor(retries) + 1] times. *)
Theorem invocations_bounded (q : Q) (w : World) :
  retries this = JS.Fin q ->
  (0 <= q)%Q ->
  exists n,
    (1 <= n <= Z.to_nat (Qfloor q) + 1)%nat /\
    sent (snd (call w)) = (repeat (url, init) n ++ sent w)%list.
Proof. apply requestWithRetries_counts. Qed.

(** X6: with an integer [retries >= 0], a call awaits exactly one delay
    between two consecutive attempts and none after its last attempt: the
    delays it awaits are one fewer than its transport invocations. *)
Theorem one_delay_between_attempts (N : Z) (w : World) :
  retries this = JS.ofZ N ->
  0 <= N ->
  (length (slept (snd (call w))) + fetchCalls w + 1 =
   length (slept w) + fetchCalls (snd (call w)))%nat.
Proof.
  intros HN Hn.
  destruct (requestWithRetries_world ToNumber Date_getTime clock patience this T parser
              endpoint options additionalHeaders w) as [Hs Hz].
  destruct (attemptLoop_delays ToNumber Date_getTime clock this T parser
              endpoint options additionalHeaders N (loopFuel patience this) HN 0 None w)
    as (n & Hsent & Hslept).
  - exact Hn.
  - rewrite (loopFuel_ofZ patience this N HN). lia.
  - unfold fetchCalls. rewrite Hs, Hz, Hsent, length_app, repeat_length. lia.
Qed.

(** The candidate of an attempt that fails without a hint. *)
Lemma candidate_of_plain (w : World) :
  plainRetryable (fetch this (fetchCalls w) url init) ->
  exists err w',
    cand w = (inr err, w') /\ shouldRetry err = true /\ retryAfterMs err = None /\
    sent w' = (url, init) :: sent w /\ slept w' = slept w.
Proof.
  intros H. pose proof (candidate_world ToNumber Date_getTime clock this T parser
                          endpoint options additionalHeaders w) as [Hs Hz].
  revert Hs Hz. unfold candidate. rewrite makeRequestCore_run.
  destruct (fetch this (fetchCalls w) url init) as [response|[e|msg|v]]; cbn zeta.
  - destruct H as (Hok & Hst & Hh). rewrite Hok, Hh. cbn. intros Hs Hz.
    eexists _, _. split; [reflexivity|]. split; [apply shouldRetry_status; exact Hst|].
    cbn. auto.
  - destruct H as [Hst Hh]. cbn. intros Hs Hz.
    eexists _, _. split; [reflexivity|]. split; [apply shouldRetry_status; exact Hst|]. auto.
  - cbn. intros Hs Hz. eexists _, _. split; [reflexivity|]. cbn. auto.
  - cbn. intros Hs Hz. eexists _, _. split; [reflexivity|]. cbn. auto.
Qed.

(** After [k] retried attempts without hint the loop stands at attempt
    [attempt + k], having sent [k] requests and awaited the schedule. *)
Lemma attemptLoop_skips (q : Q) (k : nat) :
  retries this = JS.Fin q ->
  forall (fuel : nat) (attempt : Z) (last : option MarvinError) (w : World),
    attempt + Z.of_nat k <= Qfloor q ->
    (0 < k)%nat ->
    (forall i, (i < k)%nat -> plainRetryable (fetch this (fetchCalls w + i)%nat url init)) ->
    exists err wk,
      loop (k + fuel)%nat attempt last w =
      loop fuel (attempt + Z.of_nat k) (Some err) wk /\
      sent wk = (repeat (url, init) k ++ sent w)%list /\
      slept wk = (backoffSchedule (retryDelay this) attempt k ++ slept w)%list.
Proof.
  intros Hq.
  induction k as [|k IH]; intros fuel attempt last w Hle Hk Hfail; [lia|].
  cbn [Nat.add]. rewrite attemptLoop_step by (rewrite Hq; apply leb_within; lia).
  rewrite attemptOnce_run.
  destruct (candidate_of_plain w) as (err & w1 & Hc & Hr & Hh & Hs & Hz).
  { specialize (Hfail 0%nat). rewrite Nat.add_0_r in Hfail. apply Hfail. lia. }
  rewrite Hc, (shouldRetry_not_client err Hr), Hr, Hq, eqb_below by lia.
  cbn [orb negb].
  set (w2 := rested (backoffDelay this attempt err) w1).
  assert (fetchCalls w2 = S (fetchCalls w)) as Hcalls
    by (unfold fetchCalls, w2; cbn [rested sent]; rewrite Hs; reflexivity).
  assert (slept w2 = JS.mul (retryDelay this) (JS.Math_pow2 attempt) :: slept w) as Hslept
    by (unfold w2, backoffDelay; cbn [rested slept]; rewrite Hz, Hh; reflexivity).
  assert (sent w2 = (url, init) :: sent w) as Hsent
    by (unfold w2; cbn [rested sent]; exact Hs).
  destruct k as [|k].
  - exists err, w2. cbn [Nat.add]. replace (attempt + Z.of_nat 1) with (attempt + 1) by lia.
    split; [reflexivity|]. rewrite Hsent, Hslept. split; reflexivity.
  - destruct (IH fuel (attempt + 1) (Some err) w2) as (e & wk & Hl & Hsk & Hzk).
    + lia.
    + lia.
    + intros i Hi. rewrite Hcalls. replace (S (fetchCalls w) + i)%nat
        with (fetchCalls w + S i)%nat by lia. apply Hfail. lia.
    + exists e, wk. rewrite Hl.
      replace (attempt + 1 + Z.of_nat (S k)) with (attempt + Z.of_nat (S (S k))) by lia.
      split; [reflexivity|]. rewrite Hsk, Hzk, Hsent, Hslept.
      split; [apply repeat_shift|].
      cbn [backoffSchedule]. rewrite <- !app_assoc. reflexivity.
Qed.

(** The call, once the first [k] attempts were retried without hint. *)
Lemma requestWithRetries_skips (q : Q) (k : nat) (w : World) :
  retries this = JS.Fin q ->
  Z.of_nat k <= Qfloor q ->
  (forall i, (i < k)%nat -> plainRetryable (fetch this (fetchCalls w + i)%nat url init)) ->
  exists fuel last wk,
    loop (loopFuel patience this) 0 None w = loop (S fuel) (Z.of_nat k) last wk /\
    fetchCalls wk = (fetchCalls w + k)%nat /\
    slept wk = (backoffSchedule (retryDelay this) 0 k ++ slept w)%list.
Proof.
  intros Hq Hk Hfail. rewrite (loopFuel_Fin patience this q Hq).
  destruct k as [|k].
  - exists (Z.to_nat (Qfloor q + 1)), None, w. repeat split. symmetry. apply Nat.add_0_r.
  - destruct (attemptLoop_skips q (S k) Hq (S (Z.to_nat (Qfloor q) - k)) 0 None w)
      as (err & wk & Hl & Hsk & Hzk); [lia | lia | exact Hfail |].
    exists (Z.to_nat (Qfloor q) - k)%nat, (Some err), wk.
    replace (S (Z.to_nat (Qfloor q + 1)))
      with (S k + S (Z.to_nat (Qfloor q) - k))%nat by lia.
    split; [exact Hl|]. split; [|exact Hzk].
    unfold fetchCalls. rewrite Hsk, length_app, repeat_length. lia.
Qed.

(** X7: when the first [k <= retries] invocations of a call fail with a
    retryable failure that carries no hint and the next one returns a 2xx
    response that parses, the call returns the parsed payload after exactly
    [k + 1] invocations, having awaited the delays [retryDelay * 2^0], ...,
    [retryDelay * 2^(k-1)] in that order. *)
Theorem recovers_after_retries (q : Q) (k : nat) (w : World) (response : Response) (v : T) :
  retries this = JS.Fin q ->
  (inject_Z (Z.of_nat k) <= q)%Q ->
  (forall i, (i < k)%nat -> plainRetryable (fetch this (fetchCalls w + i)%nat url init)) ->
  fetch this (fetchCalls w + k)%nat url init = Resolved response ->
  ok response = true ->
  parser response = Normal v ->
  exists w',
    call w = (Some (Normal v), w') /\
    fetchCalls w' = (fetchCalls w + k + 1)%nat /\
    slept w' = (backoffSchedule (retryDelay this) 0 k ++ slept w)%list.
Proof.
  intros Hq Hk Hfail Hf Hok Hp. apply within_floor in Hk.
  destruct (requestWithRetries_skips q k w Hq Hk Hfail) as (fuel & last & wk & Hl & Hc & Hz).
  unfold requestWithRetries, andThen. rewrite Hl.
  rewrite attemptLoop_step by (rewrite Hq; apply leb_within; exact Hk).
  rewrite attemptOnce_run. unfold candidate. rewrite makeRequestCore_run, Hc, Hf.
  cbn zeta. rewrite Hok, Hp. eexists. split; [reflexivity|].
  unfold fetchCalls in *. cbn [logged sent slept length]. split; [lia|exact Hz].
Qed.

End Attempts.

(** ** Further properties: the outcome of one attempt *)

Section Outcomes.

Variable ToNumber : string -> JS.number.
Variable Date_getTime : string -> JS.number.
Variable clock : nat -> Z.
Variable patience : nat.
Variable this : MarvinClient.
Variable T : Type.
Variable parser : Response -> Completion T.
Variable path : string.
Variable options : RequestInit.t.
Variable additionalHeaders : JS.record.

Local Abbreviation url := (requestUrl this path).
Local Abbreviation init := (requestInit this options additionalHeaders).
Local Abbreviation verb := (requestMethod options).
Local Abbreviation parseHint := (parseRetryAfter ToNumber Date_getTime clock).
Local Abbreviation core := (makeRequestCore ToNumber Date_getTime clock this T parser
                              path options additionalHeaders).
Local Abbreviation once := (attemptOnce ToNumber Date_getTime clock this T parser
                              path options additionalHeaders).
Local Abbreviation loop := (fun fuel => attemptLoop ToNumber Date_getTime clock this T parser
                              fuel path options additionalHeaders).
Local Abbreviation cand := (candidate ToNumber Date_getTime clock this T parser
                              path options additionalHeaders).
Local Abbreviation call := (requestWithRetries ToNumber Date_getTime clock patience this
                              T parser path options additionalHeaders).
Local Abbreviation passed := (passedThrough this T parser path options additionalHeaders).

Local Abbreviation namesCall :=
  (fun e : MarvinError =>
     endpoint e = path /\ method e = verb /\ name e = "MarvinError" /\
     exists k, timestamp e = clock k).

(** X8: [makeRequestCore] returns a payload only for a 2xx response that the
    parser accepts, and then reads no clock; what it throws is a failure
    record, except for the fault of the parser on a 2xx response, which it
    lets through as it is.  A response that is not ok never yields a
    payload. *)
Theorem makeRequestCore_outcomes (w w' : World) :
  (forall v, core w = (Normal v, w') ->
     exists response,
       fetch this (fetchCalls w) url init = Resolved response /\
       ok response = true /\ parser response = Normal v /\ w' = logged url init w) /\
  (forall t, core w = (Throw t, w') ->
     (exists e, t = ThrownFailure e) \/
     (exists response,
        fetch this (fetchCalls w) url init = Resolved response /\
        ok response = true /\ parser response = Throw t)).
Proof.
  rewrite makeRequestCore_run.
  destruct (fetch this (fetchCalls w) url init) as [response|[e|msg|x]]; cbn zeta.
  - destruct (ok response) eqn:Hok.
    + split.
      * intros v [= Hp <-]. exists response. auto.
      * intros t [= Hp <-]. right. exists response. auto.
    + destruct (parseHint (retryAfter response) (logged url init w)) as [hint w2].
      split; [discriminate|]. intros t [= <- _]. left. eauto.
  - split; [discriminate|]. intros t [= <- _]. left. eauto.
  - split; [discriminate|]. intros t [= <- _]. left. eauto.
  - split; [discriminate|]. intros t [= <- _]. left. eauto.
Qed.

(** The candidate failure of an attempt was passed through from the
    transport invocation of that attempt, or names the call. *)
Lemma candidate_identity (w w' : World) (err : MarvinError) :
  cand w = (inr err, w') ->
  passed (fetchCalls w) (S (fetchCalls w)) err \/ namesCall err.
Proof.
  unfold candidate. rewrite makeRequestCore_run.
  destruct (fetch this (fetchCalls w) url init) as [response|[e|msg|v]] eqn:Hf; cbn zeta.
  - destruct (ok response) eqn:Hok.
    + destruct (parser response) as [v|[e|msg|v]] eqn:Hp; cbn.
      * discriminate.
      * intros [= <- _]. left. exists (fetchCalls w). split; [lia|].
        right. exists response. auto.
      * intros [= <- _]. right. cbn. eauto.
      * intros [= <- _]. right. cbn. eauto.
    + destruct (parseHint (retryAfter response) (logged url init w)) as [hint w2].
      cbn. intros [= <- _]. right. cbn. eauto.
  - cbn. intros [= <- _]. left. exists (fetchCalls w). split; [lia|]. left. exact Hf.
  - cbn. intros [= <- _]. right. cbn. eauto.
  - cbn. intros [= <- _]. right. cbn. eauto.
Qed.

(** X9: a failure that a call throws either was thrown as a failure record
    in one of the transport invocations of the call, by the transport itself
    or by the parser on its 2xx response, or it is a [MarvinError] that names
    the call: its [endpoint] is the endpoint of the call, its [method] the
    method of the options (["GET"] when the options give none), and its
    [timestamp] a reading of the clock. *)
Theorem failure_identifies_call (w w' : World) (e : MarvinError) :
  call w = (Some (Throw (ThrownFailure e)), w') ->
  passedThrough this T parser path options additionalHeaders
    (fetchCalls w) (fetchCalls w') e \/
  (endpoint e = path /\ method e = verb /\ name e = "MarvinError" /\
   exists k, timestamp e = clock k).
Proof.
  unfold requestWithRetries, andThen.
  pose proof (attemptLoop_invariant ToNumber Date_getTime clock this T parser
                path options additionalHeaders
                (fun lo hi e => passed lo hi e \/ namesCall e)) as Hinv.
  specialize (Hinv (fun lo hi lo' hi' e H Hlo Hhi =>
                      match H with
                      | or_introl P =>
                          or_introl (passedThrough_widen this T parser path options
                                       additionalHeaders lo hi lo' hi' e P Hlo Hhi)
                      | or_intror C => or_intror C
                      end)
                   candidate_identity (loopFuel patience this) 0 None w (fetchCalls w)
                   (le_n _)).
  destruct Hinv as [_ Hinv]; [discriminate|].
  destruct (loop (loopFuel patience this) 0 None w) as [[v|err|[last|]|] w1];
    cbn [fst snd] in *.
  - discriminate.
  - intros [= <- <-]. exact Hinv.
  - intros [= <- <-]. exact Hinv.
  - unfold Date_now, pure. intros [= <- _]. right. cbn. eauto.
  - discriminate.
Qed.

(** X10: a response that is not ok, has a retryable status and carries a
    retry-after header that reads as the number [s] of seconds makes an
    attempt that is not the last one wait
    [Math.max(0, Math.floor(s * 1000))] milliseconds before the next
    attempt, whatever [retryDelay] and the index of the attempt are. *)
Theorem server_hint_sets_delay (attempt : Z) (w : World) (response : Response)
    (v : string) :
  fetch this (fetchCalls w) url init = Resolved response ->
  ok response = false ->
  retryableStatus (respStatus response) ->
  retryAfter response = Some v ->
  v <> "" ->
  JS.isNaN (ToNumber v) = false ->
  JS.eqb (JS.ofZ attempt) (retries this) = false ->
  exists err w',
    once attempt w = (StepRetry err, w') /\
    slept w' =
    JS.Math_max (JS.ofZ 0) (JS.Math_floor (JS.mul (ToNumber v) (JS.ofZ 1000))) :: slept w.
Proof.
  intros Hf Hok Hst Hh Hv Hn Ha.
  rewrite attemptOnce_run. unfold candidate. rewrite makeRequestCore_run, Hf.
  cbn zeta. rewrite Hok, Hh. unfold parseRetryAfter.
  apply String.eqb_neq in Hv. rewrite Hv, Hn. cbn [negb pure toMarvinError].
  set (err := httpFailure path options response _ _).
  assert (shouldRetry err = true) as Hr by (apply shouldRetry_status; exact Hst).
  rewrite (shouldRetry_not_client err Hr), Hr, Ha. cbn [orb negb].
  eexists _, _. split; [reflexivity|]. reflexivity.
Qed.

End Outcomes.

(** ** Further properties: the headers of a request *)

Lemma lookup_setKey (k k' v : string) (obj : JS.record) :
  JS.lookup k' (JS.setKey k v obj) =
  if String.eqb k' k then Some v else JS.lookup k' obj.
Proof.
  induction obj as [|[k0 v0] rest IH]; cbn.
  - destruct (String.eqb k' k); reflexivity.
  - destruct (String.eqb_spec k k0) as [->|Hk]; cbn.
    + destruct (String.eqb k' k0); reflexivity.
    + rewrite IH. destruct (String.eqb_spec k' k0) as [->|Hk'].
      * apply String.eqb_neq in Hk. rewrite String.eqb_sym, Hk. reflexivity.
      * reflexivity.
Qed.

Lemma lookup_app (k : string) (a b : JS.record) :
  JS.lookup k (a ++ b)%list =
  match JS.lookup k a with Some v => Some v | None => JS.lookup k b end.
Proof.
  induction a as [|[k0 v0] rest IH]; cbn; [reflexivity|].
  destruct (String.eqb k k0); [reflexivity|exact IH].
Qed.

(** In a spread, the last property of the source with the key wins over
    the target. *)
Lemma lookup_spread (k : string) (source : JS.record) :
  forall target,
    JS.lookup k (JS.spread target source) =
    match JS.lookup k (rev source) with
    | Some v => Some v
    | None => JS.lookup k target
    end.
Proof.
  unfold JS.spread. induction source as [|[k0 v0] rest IH]; intros target; cbn.
  - reflexivity.
  - rewrite IH, lookup_app, lookup_setKey. cbn.
    destruct (JS.lookup k (rev rest)); [reflexivity|].
    destruct (String.eqb k k0); reflexivity.
Qed.

Lemma lookup_absent (k : string) (obj : JS.record) :
  ~ In k (map fst obj) -> JS.lookup k obj = None.
Proof.
  induction obj as [|[k0 v0] rest IH]; cbn; [reflexivity|].
  intros H. destruct (String.eqb_spec k k0) as [->|Hk]; [tauto|].
  apply IH. tauto.
Qed.

(** An object has one property per key: the order does not matter then. *)
Lemma lookup_rev (k : string) (obj : JS.record) :
  NoDup (map fst obj) -> JS.lookup k (rev obj) = JS.lookup k obj.
Proof.
  induction obj as [|[k0 v0] rest IH]; cbn; [reflexivity|].
  intros H. inversion H as [|? ? Hnot Hrest]; subst.
  rewrite lookup_app, IH by assumption. cbn.
  destruct (String.eqb_spec k k0) as [->|Hk].
  - rewrite (lookup_absent k0 rest Hnot). reflexivity.
  - destruct (JS.lookup k rest); reflexivity.
Qed.

(** X11: of the headers a call sends, the value for a name is the one of
    the headers of the options when they have the name, else the one of the
    additional headers, else the default: the content type [application/json]
    and the token of the client under [X-API-Token]; so the token is sent
    unless the caller supplies a header of that very name. *)
Theorem header_precedence (this : MarvinClient) (options : RequestInit.t)
    (additionalHeaders : JS.record) (k : string) :
  NoDup (map fst additionalHeaders) ->
  NoDup (map fst (JS.nullish (RequestInit.headers options) [])) ->
  exists sentHeaders,
    RequestInit.headers (requestInit this options additionalHeaders) = Some sentHeaders /\
    JS.lookup k sentHeaders =
    match JS.lookup k (JS.nullish (RequestInit.headers options) []) with
    | Some v => Some v
    | None =>
        match JS.lookup k additionalHeaders with
        | Some v => Some v
        | None =>
            if String.eqb k "Content-Type" then Some "application/json"
            else if String.eqb k "X-API-Token" then Some (apiToken this)
            else None
        end
    end.
Proof.
  intros Ha Ho. eexists. split; [reflexivity|].
  rewrite !lookup_spread, !lookup_rev by assumption. reflexivity.
Qed.

(** ** Further properties: the methods of the client *)

Section Methods.

Variable ToNumber : string -> JS.number.
Variable Date_getTime : string -> JS.number.
Variable clock : nat -> Z.
Variable JSON_stringify : JS.value -> string.
Variable patience : nat.
Variable this : MarvinClient.

(** X12: with a finite [retries >= 0], a [post] whose body is truthy (every
    object is) sends at least one request, and each request it sends is a
    POST to [baseUrl + endpoint] that carries the serialized body. *)
Theorem post_attaches_truthy_body (path : string) (body : JS.value)
    (headers : option JS.record) (q : Q) (w : World) :
  retries this = JS.Fin q ->
  (0 <= q)%Q ->
  JS.truthy body = true ->
  exists n,
    (1 <= n <= Z.to_nat (Qfloor q) + 1)%nat /\
    sent (snd (post ToNumber Date_getTime clock JSON_stringify patience this
                 path body headers w)) =
    (repeat ((baseUrl this ++ path)%string,
             RequestInit.mk (Some "POST")
               (Some (JS.spread [("Content-Type", "application/json");
                                 ("X-API-Token", apiToken this)]
                                (JS.nullish headers [])))
               (Some (JSON_stringify body)) (Some (timeout this))) n
     ++ sent w)%list.
Proof.
  intros Hq Hn Hb. unfold post, request. rewrite Hb.
  apply requestWithRetries_counts; assumption.
Qed.

(** X13: with a finite [retries >= 0], [getTodayItems] with a date that is
    not empty asks for [/todayItems?date=<date>], the date inserted as it is,
    and sends the date in the [X-Date] header as well; without a date, or
    with the empty string, it asks for [/todayItems] and sends no [X-Date]
    header. *)
Theorem getTodayItems_requests (date : option string) (q : Q) (w : World) :
  retries this = JS.Fin q ->
  (0 <= q)%Q ->
  exists n,
    (1 <= n <= Z.to_nat (Qfloor q) + 1)%nat /\
    sent (snd (getTodayItems ToNumber Date_getTime clock patience this date w)) =
    (repeat
       (match date with
        | Some (String c rest) =>
            ((baseUrl this ++ "/todayItems?date=" ++ String c rest)%string,
             RequestInit.mk (Some "GET")
               (Some [("Content-Type", "application/json");
                      ("X-API-Token", apiToken this);
                      ("X-Date", String c rest)])
               None (Some (timeout this)))
        | _ =>
            ((baseUrl this ++ "/todayItems")%string,
             RequestInit.mk (Some "GET")
               (Some [("Content-Type", "application/json");
                      ("X-API-Token", apiToken this)])
               None (Some (timeout this)))
        end) n
     ++ sent w)%list.
Proof.
  intros Hq Hn. unfold getTodayItems, get, request.
  destruct date as [[|c rest]|]; cbn [JS.truthyString String.eqb negb JS.nullish];
    match goal with
    | |- context [requestWithRetries _ _ _ _ _ ?T ?p ?e ?o ?h w] =>
        destruct (requestWithRetries_counts ToNumber Date_getTime clock patience this
                    T p e o h q w Hq Hn) as (n & Hb & Hs);
        exists n; split; [exact Hb|]; rewrite Hs; reflexivity
    end.
Qed.

(** X14: with a finite [retries >= 0], [addTask] with a truthy task posts
    the serialized task to [/addTask]; it adds the header
    [X-Auto-Complete: false] exactly when [autoComplete] is given as
    [false], and no such header when it is [true] or omitted. *)
Theorem addTask_requests (task : JS.value) (autoComplete : option bool) (q : Q)
    (w : World) :
  retries this = JS.Fin q ->
  (0 <= q)%Q ->
  JS.truthy task = true ->
  exists n,
    (1 <= n <= Z.to_nat (Qfloor q) + 1)%nat /\
    sent (snd (addTask ToNumber Date_getTime clock JSON_stringify patience this
                 task autoComplete w)) =
    (repeat
       ((baseUrl this ++ "/addTask")%string,
        RequestInit.mk (Some "POST")
          (Some (match autoComplete with
                 | Some false =>
                     [("Content-Type", "application/json");
                      ("X-API-Token", apiToken this);
                      ("X-Auto-Complete", "false")]
                 | _ =>
                     [("Content-Type", "application/json");
                      ("X-API-Token", apiToken this)]
                 end))
          (Some (JSON_stringify task)) (Some (timeout this))) n
     ++ sent w)%list.
Proof.
  intros Hq Hn Hb. unfold addTask, post, request. rewrite Hb.
  destruct autoComplete as [[|]|]; cbn [JS.nullish];
    match goal with
    | |- context [requestWithRetries _ _ _ _ _ ?T ?p ?e ?o ?h w] =>
        destruct (requestWithRetries_counts ToNumber Date_getTime clock patience this
                    T p e o h q w Hq Hn) as (n & Hc & Hs);
        exists n; split; [exact Hc|]; rewrite Hs; reflexivity
    end.
Qed.

(** X15: with [retries = N], when every response to [/trackedItem] is a 2xx
    whose body reader fails with an error that mentions "Unexpected end of
    JSON input" (an empty body), [getTrackedItem] returns [null]; it does so
    only after the fault was retried through the whole budget, that is after
    [N + 1] invocations of the transport. *)
Theorem getTrackedItem_empty_body (N : Z) (w : World) :
  retries this = JS.ofZ N ->
  0 <= N ->
  (forall k url init, exists response msg,
      fetch this k url init = Resolved response /\ ok response = true /\
      json response = Throw (ThrownError msg) /\
      JS.includes msg "Unexpected end of JSON input" = true) ->
  exists w',
    getTrackedItem ToNumber Date_getTime clock patience this w =
      (Some (Normal JS.Null), w') /\
    fetchCalls w' = (fetchCalls w + Z.to_nat N + 1)%nat.
Proof.
  intros HN Hn Hall. unfold getTrackedItem, get, request, andThen.
  match goal with
  | |- context [requestWithRetries _ _ _ _ _ ?T ?p ?e ?o ?h w] =>
      destruct (attemptLoop_exhausts ToNumber Date_getTime clock this T p e o h N
                  (fun _ err =>
                     JS.includes (message err) "Unexpected end of JSON input" = true) HN)
        with (n := Z.to_nat N) (fuel := loopFuel patience this) (attempt := 0)
             (last := @None MarvinError) (w := w)
        as (err & w' & Hl & Hc & _ & Hm);
        [ intros w0;
          destruct (Hall (fetchCalls w0) (requestUrl this e) (requestInit this o h))
            as (response & msg & Hf & Hok & Hp & Hi);
          destruct (candidate_of_parser_fault ToNumber Date_getTime clock this T p e o h
                      w0 response msg Hf Hok Hp) as (now & w1 & Hcand);
          eexists _, w1; split; [exact Hcand|]; split; [reflexivity|exact Hi]
        | lia
        | rewrite (loopFuel_ofZ patience this N HN); lia
        | rewrite (requestWithRetries_threw ToNumber Date_getTime clock patience this
                     T p e o h w w' err Hl) ]
  end.
  cbn [isEmptyBodyError]. rewrite Hm. exists w'. split; [reflexivity|exact Hc].
Qed.

End Methods.

(** ** Further properties: the end of the loop *)

Section Backoff.

Variable ToNumber : string -> JS.number.
Variable Date_getTime : string -> JS.number.
Variable clock : nat -> Z.
Variable patience : nat.
Variable this : MarvinClient.
Variable T : Type.
Variable parser : Response -> Completion T.
Variable path : string.
Variable options : RequestInit.t.
Variable additionalHeaders : JS.record.

Local Abbreviation url := (requestUrl this path).
Local Abbreviation init := (requestInit this options additionalHeaders).
Local Abbreviation once := (attemptOnce ToNumber Date_getTime clock this T parser
                              path options additionalHeaders).
Local Abbreviation loop := (fun fuel => attemptLoop ToNumber Date_getTime clock this T parser
                              fuel path options additionalHeaders).
Local Abbreviation call := (requestWithRetries ToNumber Date_getTime clock patience this
                              T parser path options additionalHeaders).

(** X17: when the first [k <= retries] invocations of a call fail with a
    retryable failure that carries no hint and the next one answers with a
    response that is not ok and whose status the policy does not retry (a
    4xx other than 429, a 3xx), the call throws the failure of that response
    after exactly [k + 1] invocations: the rest of the budget is not used. *)
Theorem stops_at_final_failure (q : Q) (k : nat) (w : World) (response : Response) :
  retries this = JS.Fin q ->
  (inject_Z (Z.of_nat k) <= q)%Q ->
  (forall i, (i < k)%nat -> plainRetryable (fetch this (fetchCalls w + i)%nat url init)) ->
  fetch this (fetchCalls w + k)%nat url init = Resolved response ->
  ok response = false ->
  ~ retryableStatus (respStatus response) ->
  exists now hint w',
    call w = (Some (Throw (ThrownFailure (httpFailure path options response now hint))), w') /\
    fetchCalls w' = (fetchCalls w + k + 1)%nat /\
    slept w' = (backoffSchedule (retryDelay this) 0 k ++ slept w)%list.
Proof.
  intros Hq Hk Hfail Hf Hok Hst. apply within_floor in Hk.
  destruct (requestWithRetries_skips ToNumber Date_getTime clock patience this T parser
              path options additionalHeaders q k w Hq Hk Hfail)
    as (fuel & last & wk & Hl & Hc & Hz).
  rewrite <- Hc in Hf.
  destruct (candidate_of_response ToNumber Date_getTime clock this T parser
              path options additionalHeaders wk response Hf Hok)
    as (now & hint & w' & Hcand & Hs & Hz' & _).
  exists now, hint, w'. split.
  - apply requestWithRetries_threw. rewrite Hl.
    rewrite attemptLoop_step by (rewrite Hq; apply leb_within; exact Hk).
    rewrite attemptOnce_run, Hcand.
    rewrite (shouldRetry_refused (httpFailure path options response now hint) Hst).
    rewrite orb_true_r. reflexivity.
  - unfold fetchCalls in *. rewrite Hs, Hz', Hz. cbn [length]. split; [lia|reflexivity].
Qed.

(** X18: a failure record that the transport rejects with, or that the
    parser of a 2xx response throws, and whose status the policy does not
    retry, ends the call at that attempt: the call throws this very record,
    unchanged, and on the first attempt the transport was invoked once, no
    delay was awaited and the clock was not read. *)
Theorem foreign_failure_is_kept (w : World) (e : MarvinError) :
  JS.leb (JS.ofZ 0) (retries this) = true ->
  ~ retryableStatus (status e) ->
  fetch this (fetchCalls w) url init = Rejected (ThrownFailure e) \/
  (exists response,
     fetch this (fetchCalls w) url init = Resolved response /\
     ok response = true /\ parser response = Throw (ThrownFailure e)) ->
  call w = (Some (Throw (ThrownFailure e)), logged url init w).
Proof.
  intros Hn Hst Hsrc. apply requestWithRetries_first; [exact Hn|].
  rewrite attemptOnce_run.
  assert (candidate ToNumber Date_getTime clock this T parser path options
            additionalHeaders w = (inr e, logged url init w)) as Hc.
  { unfold candidate. rewrite makeRequestCore_run.
    destruct Hsrc as [Hf|(response & Hf & Hok & Hp)]; rewrite Hf; cbn zeta.
    - reflexivity.
    - rewrite Hok, Hp. reflexivity. }
  rewrite Hc, (shouldRetry_refused e Hst), orb_true_r. reflexivity.
Qed.

End Backoff.

(** ** Runs of the samples for the further properties *)

(** A 410 is a client error only. *)
Lemma classification_exclusive_witness :
  isClientError gone = true /\ isServerError gone = false /\ isRetryable gone = false.
Proof.
  split; [reflexivity|].
  apply (proj1 (classification_exclusive gone)). reflexivity.
Defined.

(** A 429 is retried by the executor and rejected by [isRetryable]. *)
Lemma policy_differs_on_429_only_witness :
  let e := mkMarvinError "MarvinError" "HTTP 429: Too Many Requests" 429
             "Too Many Requests" "/todayItems" "GET" 0 None in
  isClientError e = true /\ isRetryable e = false /\
  shouldRetry e = true /\ isNonRetryableClientError e = false.
Proof.
  cbv zeta.
  apply (proj1 (policy_differs_on_429_only
                  (mkMarvinError "MarvinError" "HTTP 429: Too Many Requests" 429
                     "Too Many Requests" "/todayItems" "GET" 0 None))).
  reflexivity.
Defined.

(** A configuration with a token and a timeout only is accepted, with the
    defaults for the rest; so is one that asks for 1.5 retries. *)
Lemma constructor_accepts_iff_witness :
  MarvinClient_new flaky (config (Some "retry-test-token") 5000) =
    Normal (mkMarvinClient "retry-test-token" "https://serv.amazingmarvin.com/api"
              (JS.ofZ 5000) (JS.ofZ 3) (JS.ofZ 1000) flaky) /\
  MarvinClient_new flaky (configWith (JS.Fin (3 # 2)) flaky) =
    Normal (clientWith flaky (JS.Fin (3 # 2)) 100).
Proof.
  split.
  - apply (proj2 (constructor_accepts_iff flaky (config (Some "retry-test-token") 5000) _)).
    exists "retry-test-token". repeat split.
  - apply (proj2 (constructor_accepts_iff flaky (configWith (JS.Fin (3 # 2)) flaky) _)).
    exists "retry-test-token". repeat split.
Defined.

(** A zero timeout next to negative retries: the timeout error; negative
    retries next to a zero delay: the retries error. *)
Lemma constructor_reports_first_invalid_witness :
  MarvinClient_new flaky
    (MarvinClientConfig.mk (Some "retry-test-token") None (Some (JS.ofZ 0))
       (Some (JS.ofZ (-1))) (Some (JS.ofZ 0)) None) =
    Throw (ThrownError "Timeout must be greater than 0") /\
  MarvinClient_new flaky
    (MarvinClientConfig.mk (Some "retry-test-token") None None
       (Some (JS.ofZ (-1))) (Some (JS.ofZ 0)) None) =
    Throw (ThrownError "Retries must be 0 or greater").
Proof.
  split.
  - apply (proj1 (constructor_reports_first_invalid flaky
                    (MarvinClientConfig.mk (Some "retry-test-token") None (Some (JS.ofZ 0))
                       (Some (JS.ofZ (-1))) (Some (JS.ofZ 0)) None)
                    "retry-test-token" eq_refl eq_refl)).
    reflexivity.
  - apply (proj1 (proj2 (constructor_reports_first_invalid flaky
                    (MarvinClientConfig.mk (Some "retry-test-token") None None
                       (Some (JS.ofZ (-1))) (Some (JS.ofZ 0)) None)
                    "retry-test-token" eq_refl eq_refl))).
    + reflexivity.
    + reflexivity.
Defined.

(** The flaky transport with three retries allowed: between one and four
    identical requests. *)
Lemma invocations_bounded_witness :
  let c := client flaky 3 100 in
  retries c = JS.Fin (inject_Z 3) /\
  exists n,
    (1 <= n <= Z.to_nat (Qfloor (inject_Z 3)) + 1)%nat /\
    sent (snd (requestWithRetries noNumber noNumber epoch patient c JS.value jsonParser
                 "/todayItems" getOptions [] World0)) =
    (repeat (requestUrl c "/todayItems", requestInit c getOptions []) n ++ sent World0)%list.
Proof.
  cbv zeta. split; [reflexivity|].
  apply (invocations_bounded noNumber noNumber epoch patient (client flaky 3 100) JS.value
           jsonParser "/todayItems" getOptions [] (inject_Z 3) World0).
  - reflexivity.
  - discriminate.
Defined.

(** The flaky transport with three retries allowed: three invocations and
    two delays. *)
Lemma one_delay_between_attempts_witness :
  let c := client flaky 3 100 in
  let run := requestWithRetries noNumber noNumber epoch patient c JS.value jsonParser
               "/todayItems" getOptions [] World0 in
  retries c = JS.ofZ 3 /\
  fetchCalls (snd run) = 3%nat /\
  (length (slept (snd run)) + fetchCalls World0 + 1 =
   length (slept World0) + fetchCalls (snd run))%nat.
Proof.
  cbv zeta. split; [reflexivity|]. split; [reflexivity|].
  apply (one_delay_between_attempts noNumber noNumber epoch patient (client flaky 3 100)
           JS.value jsonParser "/todayItems" getOptions [] 3 World0).
  - reflexivity.
  - lia.
Defined.

(** 500, 500, then 200 with a delay of 100: the payload after three
    invocations and the delays 100 and 200. *)
Lemma recovers_after_retries_witness :
  let c := client flaky 3 100 in
  backoffSchedule (retryDelay c) 0 2 = [JS.ofZ 200; JS.ofZ 100] /\
  exists w',
    requestWithRetries noNumber noNumber epoch patient c JS.value jsonParser
      "/todayItems" getOptions [] World0 = (Some (Normal success), w') /\
    fetchCalls w' = (fetchCalls World0 + 2 + 1)%nat /\
    slept w' = (backoffSchedule (retryDelay c) 0 2 ++ slept World0)%list.
Proof.
  cbv zeta. split; [vm_compute; reflexivity|].
  apply (recovers_after_retries noNumber noNumber epoch patient (client flaky 3 100) JS.value
           jsonParser "/todayItems" getOptions [] (inject_Z 3) 2 World0
           (okResponse (Normal success)) success).
  - reflexivity.
  - discriminate.
  - intros i Hi. destruct i as [|[|i]]; cbn.
    + repeat split. left. lia.
    + repeat split. left. lia.
    + lia.
  - reflexivity.
  - reflexivity.
  - reflexivity.
Defined.

(** A 503 makes [makeRequestCore] throw a failure record. *)
Lemma makeRequestCore_outcomes_witness :
  let c := client (failing 503 "Service Unavailable" None) 3 100 in
  exists t w',
    makeRequestCore noNumber noNumber epoch c JS.value jsonParser
      "/goals" getOptions [] World0 = (Throw t, w') /\
    ((exists e, t = ThrownFailure e) \/
     (exists response,
        fetch c (fetchCalls World0) (requestUrl c "/goals") (requestInit c getOptions [])
          = Resolved response /\
        ok response = true /\ jsonParser response = Throw t)).
Proof.
  cbv zeta. eexists _, _. split; [reflexivity|].
  eapply (proj2 (makeRequestCore_outcomes noNumber noNumber epoch
                   (client (failing 503 "Service Unavailable" None) 3 100) JS.value
                   jsonParser "/goals" getOptions [] World0 _)).
  reflexivity.
Defined.

(** The failure of a 404 was not passed through: it names the call that
    failed. *)
Lemma failure_identifies_call_witness :
  let c := client (failing 404 "Not Found" None) 3 100 in
  exists e w',
    requestWithRetries noNumber noNumber epoch patient c JS.value jsonParser
      "/habit?id=none" getOptions [] World0 = (Some (Throw (ThrownFailure e)), w') /\
    ~ passedThrough c JS.value jsonParser "/habit?id=none" getOptions []
        (fetchCalls World0) (fetchCalls w') e /\
    endpoint e = "/habit?id=none" /\ method e = "GET" /\
    name e = "MarvinError" /\ exists k, timestamp e = epoch k.
Proof.
  cbv zeta. eexists _, _. split; [reflexivity|].
  assert (forall lo hi e,
            ~ passedThrough (client (failing 404 "Not Found" None) 3 100) JS.value jsonParser
                "/habit?id=none" getOptions [] lo hi e) as Hnot.
  { intros lo hi e (k & _ & [H|(response & H & Hok & _)]).
    - discriminate H.
    - injection H as <-. discriminate Hok. }
  split; [apply Hnot|].
  destruct (failure_identifies_call noNumber noNumber epoch patient
              (client (failing 404 "Not Found" None) 3 100) JS.value jsonParser
              "/habit?id=none" getOptions [] World0 _ _ eq_refl) as [Hp|Hn].
  - exfalso. exact (Hnot _ _ _ Hp).
  - exact Hn.
Defined.

(** A 429 with the header "4.35" at attempt 0 of 3: a wait of 4350 ms. *)
Lemma server_hint_sets_delay_witness :
  let c := client (failing 429 "Too Many Requests" (Some "4.35")) 3 100 in
  exists err w',
    attemptOnce decimals noNumber epoch c JS.value jsonParser
      "/todayItems" getOptions [] 0 World0 = (StepRetry err, w') /\
    slept w' = JS.ofZ 4350 :: slept World0.
Proof.
  cbv zeta.
  destruct (server_hint_sets_delay decimals noNumber epoch
              (client (failing 429 "Too Many Requests" (Some "4.35")) 3 100)
              JS.value jsonParser "/todayItems" getOptions [] 0 World0
              (failResponse 429 "Too Many Requests" (Some "4.35")) "4.35")
    as (err & w' & Ho & Hs).
  - reflexivity.
  - reflexivity.
  - right. right. reflexivity.
  - reflexivity.
  - discriminate.
  - reflexivity.
  - reflexivity.
  - exists err, w'. split; [exact Ho|]. rewrite Hs. vm_compute. reflexivity.
Defined.

(** A caller that supplies [X-Date] and overrides the content type. *)
Lemma header_precedence_witness :
  let c := client flaky 3 100 in
  let extra := [("X-Date", "2024-01-15"); ("Content-Type", "text/plain")] in
  exists sentHeaders,
    RequestInit.headers (requestInit c getOptions extra) = Some sentHeaders /\
    JS.lookup "Content-Type" sentHeaders = Some "text/plain".
Proof.
  cbv zeta.
  destruct (header_precedence (client flaky 3 100) getOptions
              [("X-Date", "2024-01-15"); ("Content-Type", "text/plain")] "Content-Type")
    as (sentHeaders & Hs & Hl).
  - repeat constructor; cbn; intuition discriminate.
  - constructor.
  - exists sentHeaders. split; [exact Hs|exact Hl].
Defined.

(** Posting an object: between one and four requests with its text. *)
Lemma post_attaches_truthy_body_witness :
  let c := client flaky 3 100 in
  retries c = JS.Fin (inject_Z 3) /\
  exists n,
    (1 <= n <= Z.to_nat (Qfloor (inject_Z 3)) + 1)%nat /\
    sent (snd (post noNumber noNumber epoch stringify patient c
                 "/markDone" success None World0)) =
    (repeat ((baseUrl c ++ "/markDone")%string,
             RequestInit.mk (Some "POST")
               (Some (JS.spread [("Content-Type", "application/json");
                                 ("X-API-Token", apiToken c)]
                                (JS.nullish None [])))
               (Some (stringify success)) (Some (timeout c))) n
     ++ sent World0)%list.
Proof.
  cbv zeta. split; [reflexivity|].
  apply (post_attaches_truthy_body noNumber noNumber epoch stringify patient
           (client flaky 3 100) "/markDone" success None (inject_Z 3) World0).
  - reflexivity.
  - discriminate.
  - reflexivity.
Defined.

(** The items of a given day. *)
Lemma getTodayItems_requests_witness :
  let c := client flaky 3 100 in
  retries c = JS.Fin (inject_Z 3) /\
  exists n,
    (1 <= n <= Z.to_nat (Qfloor (inject_Z 3)) + 1)%nat /\
    sent (snd (getTodayItems noNumber noNumber epoch patient c (Some "2023-12-01") World0)) =
    (repeat
       ((baseUrl c ++ "/todayItems?date=" ++ "2023-12-01")%string,
        RequestInit.mk (Some "GET")
          (Some [("Content-Type", "application/json");
                 ("X-API-Token", apiToken c);
                 ("X-Date", "2023-12-01")])
          None (Some (timeout c))) n
     ++ sent World0)%list.
Proof.
  cbv zeta. split; [reflexivity|].
  apply (getTodayItems_requests noNumber noNumber epoch patient (client flaky 3 100)
           (Some "2023-12-01") (inject_Z 3) World0).
  - reflexivity.
  - discriminate.
Defined.

(** A task added with auto-completion switched off. *)
Lemma addTask_requests_witness :
  let c := client flaky 3 100 in
  retries c = JS.Fin (inject_Z 3) /\
  exists n,
    (1 <= n <= Z.to_nat (Qfloor (inject_Z 3)) + 1)%nat /\
    sent (snd (addTask noNumber noNumber epoch stringify patient c
                 success (Some false) World0)) =
    (repeat
       ((baseUrl c ++ "/addTask")%string,
        RequestInit.mk (Some "POST")
          (Some [("Content-Type", "application/json");
                 ("X-API-Token", apiToken c);
                 ("X-Auto-Complete", "false")])
          (Some (stringify success)) (Some (timeout c))) n
     ++ sent World0)%list.
Proof.
  cbv zeta. split; [reflexivity|].
  apply (addTask_requests noNumber noNumber epoch stringify patient (client flaky 3 100)
           success (Some false) (inject_Z 3) World0).
  - reflexivity.
  - discriminate.
  - reflexivity.
Defined.

(** Nothing is tracked: [null] after four invocations. *)
Lemma getTrackedItem_empty_body_witness :
  let c := client emptyBody 3 100 in
  retries c = JS.ofZ 3 /\
  exists w',
    getTrackedItem noNumber noNumber epoch patient c World0 = (Some (Normal JS.Null), w') /\
    fetchCalls w' = (fetchCalls World0 + Z.to_nat 3 + 1)%nat.
Proof.
  cbv zeta. split; [reflexivity|].
  apply (getTrackedItem_empty_body noNumber noNumber epoch patient
           (client emptyBody 3 100) 3 World0).
  - reflexivity.
  - lia.
  - intros k url init. eexists _, _. repeat split.
Defined.

(** 503, 503, then 404 with three retries allowed: three invocations. *)
Lemma stops_at_final_failure_witness :
  let c := client twoThenNotFound 3 100 in
  exists now hint w',
    requestWithRetries noNumber noNumber epoch patient c JS.value jsonParser
      "/todayItems" getOptions [] World0 =
    (Some (Throw (ThrownFailure
       (httpFailure "/todayItems" getOptions (failResponse 404 "Not Found" None) now hint))),
     w') /\
    fetchCalls w' = (fetchCalls World0 + 2 + 1)%nat /\
    slept w' = (backoffSchedule (retryDelay c) 0 2 ++ slept World0)%list.
Proof.
  cbv zeta.
  apply (stops_at_final_failure noNumber noNumber epoch patient (client twoThenNotFound 3 100)
           JS.value jsonParser "/todayItems" getOptions [] (inject_Z 3) 2 World0
           (failResponse 404 "Not Found" None)).
  - reflexivity.
  - discriminate.
  - intros i Hi. destruct i as [|[|i]]; cbn.
    + repeat split. left. lia.
    + repeat split. left. lia.
    + lia.
  - reflexivity.
  - reflexivity.
  - cbn. unfold retryableStatus. lia.
Defined.

(** A transport that rejects with its own 410: thrown as it is. *)
Lemma foreign_failure_is_kept_witness :
  let c := client rejecting 3 100 in
  requestWithRetries noNumber noNumber epoch patient c JS.value jsonParser
    "/todayItems" getOptions [] World0 =
  (Some (Throw (ThrownFailure gone)),
   logged (requestUrl c "/todayItems") (requestInit c getOptions []) World0).
Proof.
  cbv zeta.
  apply (foreign_failure_is_kept noNumber noNumber epoch patient (client rejecting 3 100)
           JS.value jsonParser "/todayItems" getOptions [] World0 gone).
  - reflexivity.
  - cbn. unfold retryableStatus. lia.
  - left. reflexivity.
Defined.
